(** * The accidental-secret-leak risk rule and the trust-boundary helpers

    A shallow embedding of [pkg/risks/builtin/accidental_secret_leak_rule.go]
    and of the trust-boundary helpers that accompany it.  Go maps are
    [gmap]s, Go pointers that the code compares with [nil] are [option]s, and a
    nil dereference is the [Panics] outcome of a small error monad. *)

From Stdlib Require Import ZArith Ascii String List Lia Bool.
From stdpp Require Import base option list gmap strings sorting.

Open Scope string_scope.
Open Scope list_scope.

(** ** Outcomes of Go code: a value, or a run-time panic *)

Inductive Outcome (A : Type) : Type :=
| Returns (a : A)
| Panics.
Arguments Returns {A} a.
Arguments Panics {A}.

Definition obind {A B : Type} (o : Outcome A) (k : A -> Outcome B) : Outcome B :=
  match o with
  | Returns a => k a
  | Panics => Panics
  end.

Notation "'let!' x ':=' o 'in' k" := (obind o (fun x => k))
  (at level 10, x name, o at level 100, k at level 200).

(** [p.Field] on a pointer [p]: panics on nil. *)
Definition deref {A : Type} (p : option A) : Outcome A :=
  match p with
  | Some a => Returns a
  | None => Panics
  end.

(** ** Enumerations of [pkg/types] *)

(** Modelled from the spec: [types.Confidentiality] is declared in pkg/types,
    not in this file.  A totally ordered enum,
    Public < Internal < Restricted < Confidential < StrictlyConfidential,
    numbered by iota. *)
Inductive Confidentiality : Set :=
| Public | Internal | Restricted | Confidential | StrictlyConfidential.

Definition confidentialityRank (c : Confidentiality) : Z :=
  match c with
  | Public => 0 | Internal => 1 | Restricted => 2
  | Confidential => 3 | StrictlyConfidential => 4
  end%Z.

(** Modelled from the spec: [types.Criticality] (used for integrity and for
    availability) is declared in pkg/types.  A totally ordered enum whose two
    highest levels are Critical < MissionCritical, MissionCritical being the
    maximum. *)
Inductive Criticality : Set :=
| Archive | Operational | Important | Critical | MissionCritical.

Definition criticalityRank (c : Criticality) : Z :=
  match c with
  | Archive => 0 | Operational => 1 | Important => 2
  | Critical => 3 | MissionCritical => 4
  end%Z.

(** Modelled from the spec: [types.RiskExploitationImpact], ordered
    Low <= Medium <= High (the rule never produces the fourth level). *)
Inductive RiskExploitationImpact : Set :=
| LowImpact | MediumImpact | HighImpact | VeryHighImpact.

Definition impactRank (i : RiskExploitationImpact) : Z :=
  match i with
  | LowImpact => 0 | MediumImpact => 1 | HighImpact => 2 | VeryHighImpact => 3
  end%Z.

(** Modelled from the spec: [types.RiskExploitationLikelihood]. *)
Inductive RiskExploitationLikelihood : Set :=
| Unlikely | Likely | VeryLikely | Frequent.

(** Modelled from the spec: [types.RiskSeverity], the codomain of the shared
    impact x likelihood table. *)
Inductive RiskSeverity : Set :=
| LowSeverity | MediumSeverity | ElevatedSeverity | HighSeverity | CriticalSeverity.

(** Modelled from the spec: [types.DataBreachProbability]. *)
Inductive DataBreachProbability : Set :=
| Improbable | Possible | Probable.

(** Modelled from the spec: [types.TrustBoundaryType], an enumerated kind that
    separates network boundaries from non-network ones such as execution
    environments. *)
Inductive TrustBoundaryType : Set :=
| NetworkOnPrem | NetworkDedicatedHoster | NetworkVirtualLAN
| NetworkCloudProvider | NetworkCloudSecurityGroup
| NetworkPolicyNamespaceIsolation | ExecutionEnvironment.

Global Instance TrustBoundaryType_eq_dec : EqDecision TrustBoundaryType.
Proof. solve_decision. Defined.

(** Modelled from the spec: [TrustBoundaryType.IsNetworkBoundary], true on the
    network kinds and false on execution environments. *)
Definition IsNetworkBoundary (t : TrustBoundaryType) : bool :=
  match t with
  | ExecutionEnvironment => false
  | _ => true
  end.

(** Modelled from the spec: the boolean technology attributes the rule asks
    for by name ([types.MayContainSecrets], [types.SourcecodeRepository],
    [types.ArtifactRegistry]). *)
Inductive TechnologyAttribute : Set :=
| MayContainSecrets | SourcecodeRepository | ArtifactRegistry.

(** ** Data model *)

(** Modelled from the spec: a technology tag carrying boolean attributes. *)
Record Technology : Type := mkTechnology {
  TechnologyName : string;
  TechnologyAttributes : TechnologyAttribute -> bool
}.

Definition TechnologyList : Type := list Technology.

(** Modelled from the spec: [TechnologyList.GetAttribute], true when some
    technology of the list carries the attribute. *)
Definition GetAttribute (ts : TechnologyList) (a : TechnologyAttribute) : bool :=
  existsb (fun t => TechnologyAttributes t a) ts.

Record TechnicalAsset : Type := mkTechnicalAsset {
  Id : string;
  Title : string;
  OutOfScope : bool;
  Technologies : TechnologyList;
  Tags : list string
}.

Record TrustBoundary : Type := mkTrustBoundary {
  TrustBoundary_Id : string;
  TrustBoundary_Type : TrustBoundaryType
}.

Record CommunicationLink : Type := mkCommunicationLink {
  SourceId : string;
  TargetId : string
}.

(** The part of [types.Model] the rule reads.  The two maps are the Go maps of
    the same names (their values are never nil: a nil pointer only arises from
    a missing key or from [FindParentTrustBoundary]); the four functions are
    the read-only queries of the model, whose bodies live in pkg/types. *)
Record Model : Type := mkModel {
  TechnicalAssets : gmap string TechnicalAsset;
  DirectContainingTrustBoundaryMappedByTechnicalAssetId : gmap string TrustBoundary;
  FindParentTrustBoundary : TrustBoundary -> option TrustBoundary;
  HighestProcessedConfidentiality : TechnicalAsset -> Confidentiality;
  HighestProcessedIntegrity : TechnicalAsset -> Criticality;
  HighestProcessedAvailability : TechnicalAsset -> Criticality
}.

(** [v, ok := m[k]] on a map of pointers. *)
Definition lookupOk {A : Type} (m : gmap string A) (k : string) : option A * bool :=
  match m !! k with
  | Some v => (Some v, true)
  | None => (None, false)
  end.

(** Modelled from the spec: [Model.SortedTechnicalAssetIDs], the keys of
    [TechnicalAssets] in sorted order ([sort.Strings], byte-wise). *)
Definition SortedTechnicalAssetIDs (m : Model) : list string :=
  merge_sort String.le (fst <$> map_to_list (TechnicalAssets m)).

(** ** Strings of the Go standard library, on ASCII *)

(** [unicode.ToLower] on one byte; bytes outside A..Z are unchanged. *)
Definition toLowerAscii (c : ascii) : ascii :=
  let n := nat_of_ascii c in
  if (65 <=? n)%nat && (n <=? 90)%nat then ascii_of_nat (n + 32) else c.

(** [strings.ToLower], ASCII letters only. *)
Fixpoint ToLower (s : string) : string :=
  match s with
  | EmptyString => EmptyString
  | String c r => String (toLowerAscii c) (ToLower r)
  end.

(** [strings.EqualFold], with simple case folding on ASCII letters only: it
    answers false on pairs that only Unicode folding equates (U+017F with s,
    U+212A with k).  The properties below use that it is reflexive, or take
    the comparison as a parameter. *)
Definition EqualFold (s t : string) : bool := String.eqb (ToLower s) (ToLower t).

Definition isSpaceAscii (c : ascii) : bool :=
  let n := nat_of_ascii c in
  ((9 <=? n)%nat && (n <=? 13)%nat) || (n =? 32)%nat.

Fixpoint trimLeft (s : string) : string :=
  match s with
  | EmptyString => EmptyString
  | String c r => if isSpaceAscii c then trimLeft r else s
  end.

Fixpoint trimRight (s : string) : string :=
  match s with
  | EmptyString => EmptyString
  | String c r =>
      match trimRight r with
      | EmptyString => if isSpaceAscii c then EmptyString else String c EmptyString
      | r' => String c r'
      end
  end.

(** [strings.TrimSpace], ASCII white space only. *)
Definition TrimSpace (s : string) : string := trimRight (trimLeft s).

(** ** Trust-boundary topology predicates *)

Definition isAcrossNetworkTrustBoundary
    (trustBoundaryOfSourceAsset trustBoundaryOfTargetAsset : option TrustBoundary)
    : Outcome bool :=
  let! s := deref trustBoundaryOfSourceAsset in
  let! t := deref trustBoundaryOfTargetAsset in
  Returns (negb (String.eqb (TrustBoundary_Id s) (TrustBoundary_Id t))
           && IsNetworkBoundary (TrustBoundary_Type t)).

Definition isNetworkOnly (parsedModel : Model) (trustBoundaryOk : bool)
    (trustBoundary : option TrustBoundary) : Outcome bool :=
  if negb trustBoundaryOk then Returns false
  else
    let! b := deref trustBoundary in
    if negb (IsNetworkBoundary (TrustBoundary_Type b)) then
      match FindParentTrustBoundary parsedModel b with
      | Some _ => Returns false
      | None => Returns true
      end
    else Returns true.

Definition isAcrossTrustBoundaryNetworkOnly (parsedModel : Model)
    (communicationLink : CommunicationLink) : Outcome bool :=
  let '(trustBoundaryOfSourceAsset, trustBoundaryOfSourceAssetOk) :=
    lookupOk (DirectContainingTrustBoundaryMappedByTechnicalAssetId parsedModel)
             (SourceId communicationLink) in
  let! srcOnly := isNetworkOnly parsedModel trustBoundaryOfSourceAssetOk
                                trustBoundaryOfSourceAsset in
  if negb srcOnly then Returns false
  else
    let '(trustBoundaryOfTargetAsset, trustBoundaryOfTargetAssetOk) :=
      lookupOk (DirectContainingTrustBoundaryMappedByTechnicalAssetId parsedModel)
               (TargetId communicationLink) in
    let! tgtOnly := isNetworkOnly parsedModel trustBoundaryOfTargetAssetOk
                                  trustBoundaryOfTargetAsset in
    if negb tgtOnly then Returns false
    else isAcrossNetworkTrustBoundary trustBoundaryOfSourceAsset trustBoundaryOfTargetAsset.

Definition contains (a : list string) (x : string) : bool :=
  existsb (fun n => String.eqb x n) a.

Definition containsCaseInsensitiveAny (a : list string) (x : list string) : bool :=
  existsb (fun n =>
    existsb (fun c => String.eqb (TrimSpace (ToLower c)) (TrimSpace (ToLower n))) x) a.

Definition isSameExecutionEnvironment (parsedModel : Model) (ta : TechnicalAsset)
    (otherAssetId : string) : Outcome bool :=
  let '(trustBoundaryOfMyAsset, trustBoundaryOfMyAssetOk) :=
    lookupOk (DirectContainingTrustBoundaryMappedByTechnicalAssetId parsedModel) (Id ta) in
  let '(trustBoundaryOfOtherAsset, trustBoundaryOfOtherAssetOk) :=
    lookupOk (DirectContainingTrustBoundaryMappedByTechnicalAssetId parsedModel) otherAssetId in
  if negb (Bool.eqb trustBoundaryOfMyAssetOk trustBoundaryOfOtherAssetOk) then Returns false
  else if negb trustBoundaryOfMyAssetOk && negb trustBoundaryOfOtherAssetOk then Returns true
  else
    let! mine := deref trustBoundaryOfMyAsset in
    if bool_decide (TrustBoundary_Type mine = ExecutionEnvironment) then
      let! other := deref trustBoundaryOfOtherAsset in
      if bool_decide (TrustBoundary_Type other = ExecutionEnvironment) then
        Returns (String.eqb (TrustBoundary_Id mine) (TrustBoundary_Id other))
      else Returns false
    else Returns false.

(** The block that [isSameTrustBoundaryNetworkOnly] runs once per side: a
    non-nil boundary that is not network-typed is replaced by its parent, and
    its ok flag by [parent != nil]. *)
Definition useParentIfNotNetwork (parsedModel : Model) (side : option TrustBoundary * bool)
    : option TrustBoundary * bool :=
  match side with
  | (Some b, ok) =>
      if negb (IsNetworkBoundary (TrustBoundary_Type b)) then
        match FindParentTrustBoundary parsedModel b with
        | Some parent => (Some parent, true)
        | None => (None, false)
        end
      else (Some b, ok)
  | (None, ok) => (None, ok)
  end.

Definition isSameTrustBoundaryNetworkOnly (parsedModel : Model) (ta : TechnicalAsset)
    (otherAssetId : string) : bool :=
  let '(trustBoundaryOfMyAsset, trustBoundaryOfMyAssetOk) :=
    useParentIfNotNetwork parsedModel
      (lookupOk (DirectContainingTrustBoundaryMappedByTechnicalAssetId parsedModel) (Id ta)) in
  let '(trustBoundaryOfOtherAsset, trustBoundaryOfOtherAssetOk) :=
    useParentIfNotNetwork parsedModel
      (lookupOk (DirectContainingTrustBoundaryMappedByTechnicalAssetId parsedModel) otherAssetId) in
  if negb (Bool.eqb trustBoundaryOfMyAssetOk trustBoundaryOfOtherAssetOk) then false
  else if negb trustBoundaryOfMyAssetOk && negb trustBoundaryOfOtherAssetOk then true
  else
    match trustBoundaryOfMyAsset, trustBoundaryOfOtherAsset with
    | None, None => true
    | None, Some _ | Some _, None => false
    | Some mine, Some other => String.eqb (TrustBoundary_Id mine) (TrustBoundary_Id other)
    end.

(** ** The rule *)

Record RiskCategory : Type := mkRiskCategory {
  ID : string;
  CategoryTitle : string;
  ASVS : string;
  CheatSheet : string;
  Action : string;
  Check : string;
  DetectionLogic : string;
  RiskAssessment : string;
  FalsePositives : string;
  ModelFailurePossibleReason : bool;
  CWE : Z
}.

Record Risk : Type := mkRisk {
  CategoryId : string;
  Severity : RiskSeverity;
  ExploitationLikelihood : RiskExploitationLikelihood;
  ExploitationImpact : RiskExploitationImpact;
  RiskTitle : string;
  MostRelevantTechnicalAssetId : string;
  DataBreachProbability_ : DataBreachProbability;
  DataBreachTechnicalAssetIDs : list string;
  SyntheticId : string
}.

(** The static metadata; the long prose fields (Description, Impact,
    Mitigation) and the two classification enums are left out, no operation
    reads them. *)
Definition Category : RiskCategory :=
  {| ID := "accidental-secret-leak";
     CategoryTitle := "Accidental Secret Leak";
     ASVS := "V14 - Configuration Verification Requirements";
     CheatSheet := "https://cheatsheetseries.owasp.org/cheatsheets/Attack_Surface_Analysis_Cheat_Sheet.html";
     Action := "Build Pipeline Hardening";
     Check := "Are recommendations from the linked cheat sheet and referenced ASVS chapter applied?";
     DetectionLogic := "In-scope sourcecode repositories and artifact registries.";
     RiskAssessment := "The risk rating depends on the sensitivity of the technical asset itself and of the data assets processed.";
     FalsePositives := "Usually no false positives.";
     ModelFailurePossibleReason := false;
     CWE := 200 |}.

Definition SupportedTags : list string := ["git"; "nexus"].

(** Modelled from the spec: [TechnicalAsset.IsTaggedWithAny] is declared in
    pkg/types; the asset's free-form tag set is searched for one of the given
    tags, through the case-insensitive helper of this package. *)
Definition IsTaggedWithAny (techAsset : TechnicalAsset) (tags : list string) : bool :=
  containsCaseInsensitiveAny (Tags techAsset) tags.

Definition skipAsset (techAsset : TechnicalAsset) : bool :=
  OutOfScope techAsset || negb (GetAttribute (Technologies techAsset) MayContainSecrets).

(** Go's [>=] and [==] on the integer-valued enums. *)
Definition confGe (c d : Confidentiality) : bool :=
  (confidentialityRank d <=? confidentialityRank c)%Z.
Definition confEq (c d : Confidentiality) : bool :=
  (confidentialityRank c =? confidentialityRank d)%Z.
Definition critGe (c d : Criticality) : bool :=
  (criticalityRank d <=? criticalityRank c)%Z.
Definition critEq (c d : Criticality) : bool :=
  (criticalityRank c =? criticalityRank d)%Z.

(** The arguments of a [fmt.Sprintf] call, kept symbolic: the [String]
    methods of the enums and of the technology list live in pkg/types. *)
Inductive FmtArg : Type :=
| VString (s : string)
| VBool (b : bool)
| VImpact (i : RiskExploitationImpact)
| VConfidentiality (c : Confidentiality)
| VCriticality (c : Criticality)
| VTechnologies (ts : TechnologyList)
| VAttribute (a : TechnologyAttribute).

(** One line of an explanation: a string literal, or a [fmt.Sprintf] call with
    its format and arguments. *)
Inductive Line : Type :=
| Lit (s : string)
| Sprintf (format : string) (args : list FmtArg).

Section Rule.

(** The impact x likelihood table shared by all rules
    ([types.CalculateSeverity]); its body lives in pkg/types. *)
Variable CalculateSeverity :
  RiskExploitationLikelihood -> RiskExploitationImpact -> RiskSeverity.

Definition createRisk (parsedModel : Model) (technicalAsset : TechnicalAsset)
    (prefix details : string) : Risk :=
  let prefix := if (0 <? String.length prefix)%nat then " (" +:+ prefix +:+ ")" else prefix in
  let title := "<b>Accidental Secret Leak" +:+ prefix +:+ "</b> risk at <b>"
               +:+ Title technicalAsset +:+ "</b>" in
  let title := if (0 <? String.length details)%nat
               then title +:+ ": <u>" +:+ details +:+ "</u>" else title in
  let impact := LowImpact in
  let highestProcessedConfidentiality := HighestProcessedConfidentiality parsedModel technicalAsset in
  let highestProcessedIntegrity := HighestProcessedIntegrity parsedModel technicalAsset in
  let highestProcessedAvailability := HighestProcessedAvailability parsedModel technicalAsset in
  let impact :=
    if confGe highestProcessedConfidentiality Confidential
       || critGe highestProcessedIntegrity Critical
       || critGe highestProcessedAvailability Critical
    then MediumImpact else impact in
  let impact :=
    if confEq highestProcessedConfidentiality StrictlyConfidential
       || critEq highestProcessedIntegrity MissionCritical
       || critEq highestProcessedAvailability MissionCritical
    then HighImpact else impact in
  let categoryId := ID Category in
  {| CategoryId := categoryId;
     Severity := CalculateSeverity Unlikely impact;
     ExploitationLikelihood := Unlikely;
     ExploitationImpact := impact;
     RiskTitle := title;
     MostRelevantTechnicalAssetId := Id technicalAsset;
     DataBreachProbability_ := Probable;
     DataBreachTechnicalAssetIDs := [Id technicalAsset];
     SyntheticId := categoryId +:+ "@" +:+ Id technicalAsset |}.

(** The loop of [GenerateRisks] over the sorted ids, with the slice [risks]
    built so far. *)
Fixpoint GenerateRisks_loop (parsedModel : Model) (ids : list string) (risks : list Risk)
    : Outcome (list Risk) :=
  match ids with
  | [] => Returns risks
  | id :: rest =>
      let! techAsset := deref (TechnicalAssets parsedModel !! id) in
      if skipAsset techAsset then GenerateRisks_loop parsedModel rest risks
      else
        let risk :=
          if IsTaggedWithAny techAsset ["git"]
          then createRisk parsedModel techAsset "Git" "Git Leak Prevention"
          else createRisk parsedModel techAsset "" "" in
        GenerateRisks_loop parsedModel rest (risks ++ [risk])
  end.

(** The second component is the [error] result; [None] is nil. *)
Definition GenerateRisks (parsedModel : Model) : Outcome (list Risk * option string) :=
  let! risks := GenerateRisks_loop parsedModel (SortedTechnicalAssetIDs parsedModel) [] in
  Returns (risks, None).

End Rule.

Fixpoint MatchRisk_loop (parsedModel : Model) (risk : string) (ids : list string)
    : Outcome bool :=
  match ids with
  | [] => Returns false
  | id :: rest =>
      let! techAsset := deref (TechnicalAssets parsedModel !! id) in
      if EqualFold risk (ID Category +:+ "@" +:+ Id techAsset)
         || EqualFold risk (ID Category +:+ "@*")
      then Returns true
      else MatchRisk_loop parsedModel risk rest
  end.

Definition MatchRisk (parsedModel : Model) (risk : string) : Outcome bool :=
  MatchRisk_loop parsedModel risk (SortedTechnicalAssetIDs parsedModel).

(** [explainRisk] returns a slice made by [make], which is never nil: the
    result is always [Some]. *)
Definition explainRisk (parsedModel : Model) (technicalAsset : TechnicalAsset)
    : option (list Line) :=
  let explanation : list Line := [] in
  let impact := LowImpact in
  let c := HighestProcessedConfidentiality parsedModel technicalAsset in
  let i := HighestProcessedIntegrity parsedModel technicalAsset in
  let a := HighestProcessedAvailability parsedModel technicalAsset in
  if confEq c StrictlyConfidential || critEq i MissionCritical || critEq a MissionCritical
  then
    let impact := HighImpact in
    let explanation := explanation ++ [Sprintf "    - impact is %v because" [VImpact impact]] in
    let explanation :=
      if confEq c StrictlyConfidential
      then explanation ++ [Sprintf "      => highest confidentiality: %v (==%v)"
                                   [VConfidentiality c; VConfidentiality StrictlyConfidential]]
      else explanation in
    let explanation :=
      if critEq i MissionCritical
      then explanation ++ [Sprintf "      => highest integrity: %v (==%v)"
                                   [VCriticality i; VCriticality MissionCritical]]
      else explanation in
    let explanation :=
      if critEq a MissionCritical
      then explanation ++ [Sprintf "      => highest availability: %v (==%v)"
                                   [VCriticality a; VCriticality MissionCritical]]
      else explanation in
    Some explanation
  else if confGe c Confidential || critGe i Critical || critGe a Critical
  then
    let impact := MediumImpact in
    let explanation := explanation ++ [Sprintf "    - impact is %v because" [VImpact impact]] in
    let explanation :=
      if confEq c StrictlyConfidential
      then explanation ++ [Sprintf "     =>  highest confidentiality: %v (>=%v)"
                                   [VConfidentiality c; VConfidentiality Confidential]]
      else explanation in
    let explanation :=
      if critEq i MissionCritical
      then explanation ++ [Sprintf "     =>  highest integrity: %v (==%v)"
                                   [VCriticality i; VCriticality Critical]]
      else explanation in
    let explanation :=
      if critEq a MissionCritical
      then explanation ++ [Sprintf "     =>  highest availability: %v (==%v)"
                                   [VCriticality a; VCriticality Critical]]
      else explanation in
    Some explanation
  else
    Some (explanation ++ [Sprintf "     - impact is %v (default)" [VImpact impact]]).

Fixpoint ExplainRisk_loop (parsedModel : Model) (risk : string) (ids : list string)
    (explanation : list Line) : Outcome (list Line) :=
  match ids with
  | [] => Returns explanation
  | id :: rest =>
      let! techAsset := deref (TechnicalAssets parsedModel !! id) in
      if EqualFold risk (ID Category +:+ "@" +:+ Id techAsset)
         || EqualFold risk (ID Category +:+ "@*")
      then
        if negb (OutOfScope techAsset)
           && (GetAttribute (Technologies techAsset) SourcecodeRepository
               || GetAttribute (Technologies techAsset) ArtifactRegistry)
        then
          match explainRisk parsedModel techAsset with
          | Some riskExplanation =>
              let explanation :=
                if (0 <? length explanation)%nat then explanation ++ [Lit ""]
                else explanation in
              let explanation :=
                explanation ++
                [ Sprintf "technical asset %q" [VString (Id techAsset)];
                  Sprintf "  - out of scope: %v (=false)" [VBool (OutOfScope techAsset)];
                  Sprintf "  - technology: %v (has either [%q, %q])"
                          [VTechnologies (Technologies techAsset);
                           VAttribute SourcecodeRepository; VAttribute ArtifactRegistry] ] in
              let explanation :=
                if IsTaggedWithAny techAsset ["git"]
                then explanation ++ [Lit "  is tagged with 'git'"]
                else explanation in
              ExplainRisk_loop parsedModel risk rest (explanation ++ riskExplanation)
          | None => ExplainRisk_loop parsedModel risk rest explanation
          end
        else ExplainRisk_loop parsedModel risk rest explanation
      else ExplainRisk_loop parsedModel risk rest explanation
  end.

Definition ExplainRisk (parsedModel : Model) (risk : string) : Outcome (list Line) :=
  ExplainRisk_loop parsedModel risk (SortedTechnicalAssetIDs parsedModel) [].

(** ** The two identifier operations, with [strings.EqualFold] a parameter

    [MatchRisk] and [ExplainRisk] once more, line for line, with the
    comparison of the Go standard library left open.  Above it is the ASCII
    folding [EqualFold]; [strings.EqualFold] itself folds all of Unicode. *)

Section EqualFoldParameter.

Variable equalFold : string -> string -> bool.

Fixpoint MatchRisk_loop_by (parsedModel : Model) (risk : string) (ids : list string)
    : Outcome bool :=
  match ids with
  | [] => Returns false
  | id :: rest =>
      let! techAsset := deref (TechnicalAssets parsedModel !! id) in
      if equalFold risk (ID Category +:+ "@" +:+ Id techAsset)
         || equalFold risk (ID Category +:+ "@*")
      then Returns true
      else MatchRisk_loop_by parsedModel risk rest
  end.

Definition MatchRisk_by (parsedModel : Model) (risk : string) : Outcome bool :=
  MatchRisk_loop_by parsedModel risk (SortedTechnicalAssetIDs parsedModel).

Fixpoint ExplainRisk_loop_by (parsedModel : Model) (risk : string) (ids : list string)
    (explanation : list Line) : Outcome (list Line) :=
  match ids with
  | [] => Returns explanation
  | id :: rest =>
      let! techAsset := deref (TechnicalAssets parsedModel !! id) in
      if equalFold risk (ID Category +:+ "@" +:+ Id techAsset)
         || equalFold risk (ID Category +:+ "@*")
      then
        if negb (OutOfScope techAsset)
           && (GetAttribute (Technologies techAsset) SourcecodeRepository
               || GetAttribute (Technologies techAsset) ArtifactRegistry)
        then
          match explainRisk parsedModel techAsset with
          | Some riskExplanation =>
              let explanation :=
                if (0 <? length explanation)%nat then explanation ++ [Lit ""]
                else explanation in
              let explanation :=
                explanation ++
                [ Sprintf "technical asset %q" [VString (Id techAsset)];
                  Sprintf "  - out of scope: %v (=false)" [VBool (OutOfScope techAsset)];
                  Sprintf "  - technology: %v (has either [%q, %q])"
                          [VTechnologies (Technologies techAsset);
                           VAttribute SourcecodeRepository; VAttribute ArtifactRegistry] ] in
              let explanation :=
                if IsTaggedWithAny techAsset ["git"]
                then explanation ++ [Lit "  is tagged with 'git'"]
                else explanation in
              ExplainRisk_loop_by parsedModel risk rest (explanation ++ riskExplanation)
          | None => ExplainRisk_loop_by parsedModel risk rest explanation
          end
        else ExplainRisk_loop_by parsedModel risk rest explanation
      else ExplainRisk_loop_by parsedModel risk rest explanation
  end.

Definition ExplainRisk_by (parsedModel : Model) (risk : string) : Outcome (list Line) :=
  ExplainRisk_loop_by parsedModel risk (SortedTechnicalAssetIDs parsedModel) [].

End EqualFoldParameter.

(** ** Specification-side definitions *)

(** The impact tier as the specification words it: High first, otherwise
    Medium, otherwise Low. *)
Definition impactTierSpec (c : Confidentiality) (i a : Criticality) : RiskExploitationImpact :=
  if confEq c StrictlyConfidential || critEq i MissionCritical || critEq a MissionCritical
  then HighImpact
  else if confGe c Confidential || critGe i Critical || critGe a Critical
  then MediumImpact
  else LowImpact.

(** A boundary is a network-only context when it is network-typed, or when it
    is not and has no parent boundary. *)
Definition networkOnlyContext (m : Model) (b : TrustBoundary) : Prop :=
  IsNetworkBoundary (TrustBoundary_Type b) = true
  \/ (IsNetworkBoundary (TrustBoundary_Type b) = false /\ FindParentTrustBoundary m b = None).

(** The direct containing boundary of an asset, and the boundary that
    [isSameTrustBoundaryNetworkOnly] compares after its one-step normalization. *)
Definition directBoundary (m : Model) (assetId : string) : option TrustBoundary :=
  DirectContainingTrustBoundaryMappedByTechnicalAssetId m !! assetId.

Definition normalizedBoundary (m : Model) (assetId : string) : option TrustBoundary :=
  match directBoundary m assetId with
  | Some b =>
      if IsNetworkBoundary (TrustBoundary_Type b) then Some b
      else FindParentTrustBoundary m b
  | None => None
  end.

(** Asset identities are unique within a model. *)
Definition uniqueIds (m : Model) : Prop :=
  forall k1 k2 a1 a2,
    TechnicalAssets m !! k1 = Some a1 ->
    TechnicalAssets m !! k2 = Some a2 ->
    Id a1 = Id a2 -> k1 = k2.

(** The assets of the model in the order [GenerateRisks] visits them. *)
Definition assetsAt (m : Model) (ids : list string) : list TechnicalAsset :=
  omap (fun k => TechnicalAssets m !! k) ids.

Definition sortedAssets (m : Model) : list TechnicalAsset :=
  assetsAt m (SortedTechnicalAssetIDs m).

(** The risk that the body of the loop of [GenerateRisks] builds for an asset
    it does not skip. *)
Definition riskOf (calc : RiskExploitationLikelihood -> RiskExploitationImpact -> RiskSeverity)
    (m : Model) (a : TechnicalAsset) : Risk :=
  if IsTaggedWithAny a ["git"]
  then createRisk calc m a "Git" "Git Leak Prevention"
  else createRisk calc m a "" "".

(** The risks of a result that concern a given asset. *)
Definition risksFor (a : TechnicalAsset) (risks : list Risk) : list Risk :=
  filter (fun r => MostRelevantTechnicalAssetId r = Id a) risks.

(** Substring. *)
Definition containsString (s sub : string) : Prop :=
  exists pre post, s = pre +:+ sub +:+ post.

(** The impact tiers an explanation reports, each with the asset whose block
    it stands in: a block opens with the line [technical asset %q] and its
    tier is the single [%v] argument of an impact line. *)
Definition assetOfLine (l : Line) : option string :=
  match l with
  | Sprintf "technical asset %q" [VString id] => Some id
  | _ => None
  end.

Definition impactOfLine (l : Line) : option RiskExploitationImpact :=
  match l with
  | Sprintf _ [VImpact i] => Some i
  | _ => None
  end.

Fixpoint reportedFrom (current : option string) (ls : list Line)
    : list (string * RiskExploitationImpact) :=
  match ls with
  | [] => []
  | l :: rest =>
      match assetOfLine l with
      | Some id => reportedFrom (Some id) rest
      | None =>
          match impactOfLine l, current with
          | Some i, Some id => (id, i) :: reportedFrom current rest
          | _, _ => reportedFrom current rest
          end
      end
  end.

Definition reportedImpacts (explanation : Outcome (list Line))
    : list (string * RiskExploitationImpact) :=
  match explanation with
  | Returns ls => reportedFrom None ls
  | Panics => []
  end.

(** The asset whose block is open after the lines [ls]. *)
Fixpoint currentAfter (current : option string) (ls : list Line) : option string :=
  match ls with
  | [] => current
  | l :: rest =>
      match assetOfLine l with
      | Some id => currentAfter (Some id) rest
      | None => currentAfter current rest
      end
  end.

(** The two tests an asset passes before [ExplainRisk] explains it: the
    identifier matches, and the asset is an in-scope sourcecode repository or
    artifact registry. *)
Definition matchesRisk (risk : string) (a : TechnicalAsset) : bool :=
  EqualFold risk (ID Category +:+ "@" +:+ Id a) || EqualFold risk (ID Category +:+ "@*").

Definition explainable (a : TechnicalAsset) : bool :=
  negb (OutOfScope a)
  && (GetAttribute (Technologies a) SourcecodeRepository
      || GetAttribute (Technologies a) ArtifactRegistry).

(** ** Sample inputs *)

(** An instance of the shared severity table (likelihood weight times impact
    weight, cut at 1, 3, 8 and 12), used to run the rule on the examples. *)
Definition sampleSeverity (l : RiskExploitationLikelihood) (i : RiskExploitationImpact)
    : RiskSeverity :=
  let w := (match l with Unlikely => 1 | Likely => 2 | VeryLikely => 3 | Frequent => 4 end
            * (impactRank i + 1))%Z in
  if (w <=? 1)%Z then LowSeverity
  else if (w <=? 3)%Z then MediumSeverity
  else if (w <=? 8)%Z then ElevatedSeverity
  else if (w <=? 12)%Z then HighSeverity
  else CriticalSeverity.

Definition techRepo : Technology :=
  mkTechnology "sourcecode-repository"
    (fun a => match a with MayContainSecrets | SourcecodeRepository => true | _ => false end).
Definition techVault : Technology :=
  mkTechnology "vault" (fun a => match a with MayContainSecrets => true | _ => false end).
Definition techWeb : Technology := mkTechnology "web-server" (fun _ => false).

Definition assetX : TechnicalAsset := mkTechnicalAsset "x" "Repo X" false [techRepo] ["git"].
Definition assetY : TechnicalAsset := mkTechnicalAsset "y" "Repo Y" true [techRepo] [].
Definition assetZ : TechnicalAsset := mkTechnicalAsset "z" "Web Z" false [techWeb] [].
Definition assetV : TechnicalAsset := mkTechnicalAsset "v" "Vault V" false [techVault] [].

Definition lanBoundary : TrustBoundary := mkTrustBoundary "lan" NetworkVirtualLAN.
Definition dmzBoundary : TrustBoundary := mkTrustBoundary "dmz" NetworkOnPrem.
Definition podBoundary : TrustBoundary := mkTrustBoundary "pod" ExecutionEnvironment.

Definition sampleModel : Model :=
  {| TechnicalAssets :=
       <["x" := assetX]> (<["y" := assetY]> (<["z" := assetZ]> (<["v" := assetV]> ∅)));
     DirectContainingTrustBoundaryMappedByTechnicalAssetId :=
       <["x" := lanBoundary]> (<["y" := dmzBoundary]> ∅);
     FindParentTrustBoundary := fun _ => None;
     HighestProcessedConfidentiality :=
       fun a => if String.eqb (Id a) "x" then StrictlyConfidential else Public;
     HighestProcessedIntegrity := fun _ => Archive;
     HighestProcessedAvailability := fun _ => Archive |}.

(** A model whose only asset is out of scope. *)
Definition outOfScopeModel : Model :=
  {| TechnicalAssets := <["y" := assetY]> ∅;
     DirectContainingTrustBoundaryMappedByTechnicalAssetId := ∅;
     FindParentTrustBoundary := fun _ => None;
     HighestProcessedConfidentiality := fun _ => Public;
     HighestProcessedIntegrity := fun _ => Archive;
     HighestProcessedAvailability := fun _ => Archive |}.

(** A model whose only asset may contain secrets but is neither a sourcecode
    repository nor an artifact registry. *)
Definition vaultModel : Model :=
  {| TechnicalAssets := <["v" := assetV]> ∅;
     DirectContainingTrustBoundaryMappedByTechnicalAssetId := ∅;
     FindParentTrustBoundary := fun _ => None;
     HighestProcessedConfidentiality := fun _ => Public;
     HighestProcessedIntegrity := fun _ => Archive;
     HighestProcessedAvailability := fun _ => Archive |}.

(** The sample model with every aggregate raised to the Medium threshold. *)
Definition confidentialModel : Model :=
  {| TechnicalAssets := TechnicalAssets sampleModel;
     DirectContainingTrustBoundaryMappedByTechnicalAssetId :=
       <["x" := podBoundary]> (<["y" := podBoundary]> (<["z" := lanBoundary]> ∅));
     FindParentTrustBoundary :=
       fun b => if String.eqb (TrustBoundary_Id b) "pod" then Some lanBoundary else None;
     HighestProcessedConfidentiality := fun _ => Confidential;
     HighestProcessedIntegrity := fun _ => Critical;
     HighestProcessedAvailability := fun _ => Important |}.

(** * Properties *)

(** ** The rule on the sample model *)

Example SortedTechnicalAssetIDs_sample :
  SortedTechnicalAssetIDs sampleModel = ["v"; "x"; "y"; "z"].
Proof. vm_compute. reflexivity. Qed.

Example GenerateRisks_sample :
  GenerateRisks sampleSeverity sampleModel
  = Returns ([ {| CategoryId := "accidental-secret-leak";
                  Severity := LowSeverity;
                  ExploitationLikelihood := Unlikely;
                  ExploitationImpact := LowImpact;
                  RiskTitle := "<b>Accidental Secret Leak</b> risk at <b>Vault V</b>";
                  MostRelevantTechnicalAssetId := "v";
                  DataBreachProbability_ := Probable;
                  DataBreachTechnicalAssetIDs := ["v"];
                  SyntheticId := "accidental-secret-leak@v" |};
               {| CategoryId := "accidental-secret-leak";
                  Severity := MediumSeverity;
                  ExploitationLikelihood := Unlikely;
                  ExploitationImpact := HighImpact;
                  RiskTitle := "<b>Accidental Secret Leak (Git)</b> risk at <b>Repo X</b>: <u>Git Leak Prevention</u>";
                  MostRelevantTechnicalAssetId := "x";
                  DataBreachProbability_ := Probable;
                  DataBreachTechnicalAssetIDs := ["x"];
                  SyntheticId := "accidental-secret-leak@x" |} ], None).
Proof. vm_compute. reflexivity. Qed.

Example MatchRisk_sample_fold :
  MatchRisk sampleModel "Accidental-Secret-Leak@X" = Returns true
  /\ MatchRisk sampleModel "accidental-secret-leak@y" = Returns true
  /\ MatchRisk sampleModel "accidental-secret-leak@w" = Returns false.
Proof. repeat split; vm_compute; reflexivity. Qed.

Example ExplainRisk_sample :
  ExplainRisk sampleModel "accidental-secret-leak@x"
  = Returns
      [ Sprintf "technical asset %q" [VString "x"];
        Sprintf "  - out of scope: %v (=false)" [VBool false];
        Sprintf "  - technology: %v (has either [%q, %q])"
                [VTechnologies [techRepo];
                 VAttribute SourcecodeRepository; VAttribute ArtifactRegistry];
        Lit "  is tagged with 'git'";
        Sprintf "    - impact is %v because" [VImpact HighImpact];
        Sprintf "      => highest confidentiality: %v (==%v)"
                [VConfidentiality StrictlyConfidential;
                 VConfidentiality StrictlyConfidential] ].
Proof. reflexivity. Qed.

Example reportedImpacts_sample :
  reportedImpacts (ExplainRisk sampleModel "accidental-secret-leak@*") = [("x", HighImpact)].
Proof. vm_compute. reflexivity. Qed.

Example TrimSpace_sample : TrimSpace (ToLower "  Git Hub  ") = "git hub".
Proof. reflexivity. Qed.

(** ** The severity classifier *)

Lemma createRisk_ExploitationImpact calc m a prefix details :
  ExploitationImpact (createRisk calc m a prefix details)
  = impactTierSpec (HighestProcessedConfidentiality m a)
                   (HighestProcessedIntegrity m a)
                   (HighestProcessedAvailability m a).
Proof.
  unfold createRisk, impactTierSpec; cbn [ExploitationImpact].
  destruct (HighestProcessedConfidentiality m a),
           (HighestProcessedIntegrity m a),
           (HighestProcessedAvailability m a); reflexivity.
Qed.

(** C2: the impact tier [createRisk] stores is High when the highest
    processed confidentiality equals StrictlyConfidential or the highest
    processed integrity or availability equals MissionCritical; otherwise
    Medium when confidentiality >= Confidential or integrity >= Critical or
    availability >= Critical; otherwise Low. *)
Theorem createRisk_impact_tier :
  forall calc (m : Model) (a : TechnicalAsset) (prefix details : string),
    let c := HighestProcessedConfidentiality m a in
    let i := HighestProcessedIntegrity m a in
    let v := HighestProcessedAvailability m a in
    let high := c = StrictlyConfidential \/ i = MissionCritical \/ v = MissionCritical in
    let medium := (confidentialityRank Confidential <= confidentialityRank c)%Z
                  \/ (criticalityRank Critical <= criticalityRank i)%Z
                  \/ (criticalityRank Critical <= criticalityRank v)%Z in
    (high -> ExploitationImpact (createRisk calc m a prefix details) = HighImpact)
    /\ (~ high -> medium ->
        ExploitationImpact (createRisk calc m a prefix details) = MediumImpact)
    /\ (~ high -> ~ medium ->
        ExploitationImpact (createRisk calc m a prefix details) = LowImpact).
Proof.
  intros calc m a prefix details. cbv zeta.
  rewrite createRisk_ExploitationImpact.
  destruct (HighestProcessedConfidentiality m a),
           (HighestProcessedIntegrity m a),
           (HighestProcessedAvailability m a);
    cbn; (split; [| split]); intros; try reflexivity; exfalso;
    intuition (congruence || lia).
Qed.

Lemma createRisk_impact_tier_witness :
  ExploitationImpact (createRisk sampleSeverity sampleModel assetX "Git" "Git Leak Prevention")
  = HighImpact
  /\ ExploitationImpact (createRisk sampleSeverity sampleModel assetV "" "") = LowImpact.
Proof.
  split.
  - apply (proj1 (createRisk_impact_tier sampleSeverity sampleModel assetX
                    "Git" "Git Leak Prevention")).
    left. reflexivity.
  - apply (proj2 (proj2 (createRisk_impact_tier sampleSeverity sampleModel assetV "" ""))).
    + vm_compute. intros [H | [H | H]]; discriminate.
    + vm_compute. intros [H | [H | H]]; apply H; reflexivity.
Defined.

Lemma createRisk_severity calc m a prefix details :
  Severity (createRisk calc m a prefix details)
  = calc Unlikely (ExploitationImpact (createRisk calc m a prefix details)).
Proof. reflexivity. Qed.

Lemma impactTierSpec_monotone c c' i i' a a' :
  (confidentialityRank c <= confidentialityRank c')%Z ->
  (criticalityRank i <= criticalityRank i')%Z ->
  (criticalityRank a <= criticalityRank a')%Z ->
  (impactRank (impactTierSpec c i a) <= impactRank (impactTierSpec c' i' a'))%Z.
Proof.
  destruct c, c'; cbn; try lia; intros _;
    destruct i, i'; cbn; try lia; intros _;
    destruct a, a'; cbn; lia.
Qed.

(** C8: raising the aggregate confidentiality, integrity or availability of
    an asset (the others not lowered) never lowers the impact tier that
    [createRisk] computes, in the order Low <= Medium <= High. *)
Theorem createRisk_impact_monotone :
  forall calc (m m' : Model) (a a' : TechnicalAsset) (prefix details prefix' details' : string),
    (confidentialityRank (HighestProcessedConfidentiality m a)
     <= confidentialityRank (HighestProcessedConfidentiality m' a'))%Z ->
    (criticalityRank (HighestProcessedIntegrity m a)
     <= criticalityRank (HighestProcessedIntegrity m' a'))%Z ->
    (criticalityRank (HighestProcessedAvailability m a)
     <= criticalityRank (HighestProcessedAvailability m' a'))%Z ->
    (impactRank (ExploitationImpact (createRisk calc m a prefix details))
     <= impactRank (ExploitationImpact (createRisk calc m' a' prefix' details')))%Z.
Proof.
  intros. rewrite !createRisk_ExploitationImpact. by apply impactTierSpec_monotone.
Qed.

Lemma createRisk_impact_monotone_witness :
  (impactRank (ExploitationImpact (createRisk sampleSeverity sampleModel assetV "" ""))
   <= impactRank (ExploitationImpact
                    (createRisk sampleSeverity sampleModel assetX "Git" "Git Leak Prevention")))%Z.
Proof.
  apply (createRisk_impact_monotone sampleSeverity sampleModel sampleModel assetV assetX);
    vm_compute; discriminate.
Defined.

(** ** Trust-boundary topology *)

Lemma lookupOk_directBoundary m k :
  lookupOk (DirectContainingTrustBoundaryMappedByTechnicalAssetId m) k
  = match directBoundary m k with
    | Some b => (Some b, true)
    | None => (None, false)
    end.
Proof. reflexivity. Qed.

Lemma isNetworkOnly_Some m b :
  isNetworkOnly m true (Some b)
  = Returns (bool_decide (networkOnlyContext m b)).
Proof.
  unfold isNetworkOnly, networkOnlyContext; cbn.
  destruct (IsNetworkBoundary (TrustBoundary_Type b)) eqn:Hn; cbn.
  - rewrite bool_decide_eq_true_2; [done | by left].
  - destruct (FindParentTrustBoundary m b) eqn:Hp.
    + rewrite bool_decide_eq_false_2; [done |].
      intros [? | [_ ?]]; congruence.
    + rewrite bool_decide_eq_true_2; [done | by right].
Qed.

Lemma isAcrossNetworkTrustBoundary_Some a b :
  isAcrossNetworkTrustBoundary (Some a) (Some b)
  = Returns (bool_decide (TrustBoundary_Id a <> TrustBoundary_Id b)
             && IsNetworkBoundary (TrustBoundary_Type b)).
Proof.
  unfold isAcrossNetworkTrustBoundary; cbn. do 2 f_equal.
  destruct (String.eqb_spec (TrustBoundary_Id a) (TrustBoundary_Id b)) as [He | He].
  - by rewrite bool_decide_eq_false_2; [| intros ?].
  - by rewrite bool_decide_eq_true_2.
Qed.

(** C7: on two boundaries, [isAcrossNetworkTrustBoundary a b] is true exactly
    when the identities differ and [b] is network-typed; so for two boundaries
    of different identity of which exactly one is network-typed, swapping the
    arguments changes the answer. *)
Theorem isAcrossNetworkTrustBoundary_directional :
  forall a b : TrustBoundary,
    (isAcrossNetworkTrustBoundary (Some a) (Some b) = Returns true
     <-> TrustBoundary_Id a <> TrustBoundary_Id b
         /\ IsNetworkBoundary (TrustBoundary_Type b) = true)
    /\ (TrustBoundary_Id a <> TrustBoundary_Id b ->
        IsNetworkBoundary (TrustBoundary_Type a) <> IsNetworkBoundary (TrustBoundary_Type b) ->
        isAcrossNetworkTrustBoundary (Some a) (Some b)
        <> isAcrossNetworkTrustBoundary (Some b) (Some a)).
Proof.
  intros a b. rewrite !isAcrossNetworkTrustBoundary_Some. split.
  - split.
    + intros [= H]. apply andb_true_iff in H as [H1 H2].
      by apply bool_decide_eq_true_1 in H1.
    + intros [H1 H2]. by rewrite bool_decide_eq_true_2, H2.
  - intros Hid Hty.
    rewrite !bool_decide_eq_true_2 by congruence. cbn.
    intros [= H]. congruence.
Qed.

Lemma isAcrossNetworkTrustBoundary_directional_witness :
  isAcrossNetworkTrustBoundary (Some podBoundary) (Some lanBoundary)
  <> isAcrossNetworkTrustBoundary (Some lanBoundary) (Some podBoundary).
Proof.
  apply (proj2 (isAcrossNetworkTrustBoundary_directional podBoundary lanBoundary));
    vm_compute; discriminate.
Defined.

(** C5: [isAcrossTrustBoundaryNetworkOnly] always returns; it returns true
    exactly when source and target both have a recorded direct boundary that
    is a network-only context, the two boundaries have different identities
    and the target's is network-typed; an asset without a recorded boundary
    makes it false. *)
Theorem isAcrossTrustBoundaryNetworkOnly_spec :
  forall (m : Model) (link : CommunicationLink),
    (exists r, isAcrossTrustBoundaryNetworkOnly m link = Returns r)
    /\ (isAcrossTrustBoundaryNetworkOnly m link = Returns true
        <-> exists s t,
              directBoundary m (SourceId link) = Some s
              /\ directBoundary m (TargetId link) = Some t
              /\ networkOnlyContext m s /\ networkOnlyContext m t
              /\ TrustBoundary_Id s <> TrustBoundary_Id t
              /\ IsNetworkBoundary (TrustBoundary_Type t) = true)
    /\ (directBoundary m (SourceId link) = None \/ directBoundary m (TargetId link) = None ->
        isAcrossTrustBoundaryNetworkOnly m link = Returns false).
Proof.
  intros m link. unfold isAcrossTrustBoundaryNetworkOnly.
  rewrite !lookupOk_directBoundary.
  destruct (directBoundary m (SourceId link)) as [s |] eqn:Hs; cbn -[isNetworkOnly isAcrossNetworkTrustBoundary].
  2: { split; [by eexists |]. split; [| done].
       split; [done | intros (? & ? & ? & _); congruence]. }
  rewrite isNetworkOnly_Some; cbn -[isNetworkOnly isAcrossNetworkTrustBoundary].
  destruct (bool_decide (networkOnlyContext m s)) eqn:Hsn; cbn -[isNetworkOnly isAcrossNetworkTrustBoundary].
  2: { apply bool_decide_eq_false_1 in Hsn.
       split; [by eexists |]. split; [| done].
       split; [done |]. intros (s' & t' & [= <-] & _ & ? & _). contradiction. }
  apply bool_decide_eq_true_1 in Hsn.
  destruct (directBoundary m (TargetId link)) as [t |] eqn:Ht; cbn -[isNetworkOnly isAcrossNetworkTrustBoundary].
  2: { split; [by eexists |]. split; [| done].
       split; [done | intros (? & ? & _ & ? & _); congruence]. }
  rewrite isNetworkOnly_Some; cbn -[isNetworkOnly isAcrossNetworkTrustBoundary].
  destruct (bool_decide (networkOnlyContext m t)) eqn:Htn; cbn -[isNetworkOnly isAcrossNetworkTrustBoundary].
  2: { apply bool_decide_eq_false_1 in Htn.
       split; [by eexists |]. split; [| by intros [? | ?]].
       split; [done |]. intros (s' & t' & _ & [= <-] & _ & ? & _). contradiction. }
  apply bool_decide_eq_true_1 in Htn.
  rewrite isAcrossNetworkTrustBoundary_Some.
  split; [by eexists |]. split; [| by intros [? | ?]].
  split.
  - intros [= H]. apply andb_true_iff in H as [H1 H2].
    apply bool_decide_eq_true_1 in H1. by exists s, t.
  - intros (s' & t' & [= <-] & [= <-] & _ & _ & H1 & H2).
    by rewrite bool_decide_eq_true_2, H2.
Qed.

Lemma isAcrossTrustBoundaryNetworkOnly_spec_witness :
  isAcrossTrustBoundaryNetworkOnly sampleModel (mkCommunicationLink "x" "y") = Returns true
  /\ isAcrossTrustBoundaryNetworkOnly sampleModel (mkCommunicationLink "x" "z") = Returns false.
Proof.
  split.
  - apply (proj1 (proj2 (isAcrossTrustBoundaryNetworkOnly_spec sampleModel
                           (mkCommunicationLink "x" "y")))).
    exists lanBoundary, dmzBoundary.
    repeat split; try reflexivity; try (left; reflexivity); discriminate.
  - apply (proj2 (proj2 (isAcrossTrustBoundaryNetworkOnly_spec sampleModel
                           (mkCommunicationLink "x" "z")))).
    right. reflexivity.
Defined.

Lemma useParentIfNotNetwork_lookupOk m k :
  useParentIfNotNetwork m
    (lookupOk (DirectContainingTrustBoundaryMappedByTechnicalAssetId m) k)
  = match normalizedBoundary m k with
    | Some b => (Some b, true)
    | None => (None, false)
    end.
Proof.
  unfold normalizedBoundary, useParentIfNotNetwork.
  rewrite lookupOk_directBoundary.
  destruct (directBoundary m k) as [b |]; [| done].
  destruct (IsNetworkBoundary (TrustBoundary_Type b)); cbn; [done |].
  by destruct (FindParentTrustBoundary m b).
Qed.

Lemma isSameTrustBoundaryNetworkOnly_normalized m ta other :
  isSameTrustBoundaryNetworkOnly m ta other
  = match normalizedBoundary m (Id ta), normalizedBoundary m other with
    | Some mine, Some theirs =>
        String.eqb (TrustBoundary_Id mine) (TrustBoundary_Id theirs)
    | None, None => true
    | _, _ => false
    end.
Proof.
  unfold isSameTrustBoundaryNetworkOnly.
  rewrite !useParentIfNotNetwork_lookupOk.
  by destruct (normalizedBoundary m (Id ta)), (normalizedBoundary m other).
Qed.

(** C6: two assets without a recorded direct boundary are in the same
    execution environment and in the same network-only trust boundary; when
    exactly one of the two has a boundary (for
    [isSameTrustBoundaryNetworkOnly]: after its one-step normalization) the
    predicate is false. *)
Theorem same_boundary_absent_cases :
  forall (m : Model) (ta : TechnicalAsset) (otherAssetId : string),
    (directBoundary m (Id ta) = None -> directBoundary m otherAssetId = None ->
     isSameExecutionEnvironment m ta otherAssetId = Returns true
     /\ isSameTrustBoundaryNetworkOnly m ta otherAssetId = true)
    /\ ((is_Some (directBoundary m (Id ta)) /\ directBoundary m otherAssetId = None)
        \/ (directBoundary m (Id ta) = None /\ is_Some (directBoundary m otherAssetId)) ->
        isSameExecutionEnvironment m ta otherAssetId = Returns false)
    /\ ((is_Some (normalizedBoundary m (Id ta)) /\ normalizedBoundary m otherAssetId = None)
        \/ (normalizedBoundary m (Id ta) = None /\ is_Some (normalizedBoundary m otherAssetId)) ->
        isSameTrustBoundaryNetworkOnly m ta otherAssetId = false).
Proof.
  intros m ta other. split; [| split].
  - intros Hmine Hother. split.
    + unfold isSameExecutionEnvironment.
      by rewrite !lookupOk_directBoundary, Hmine, Hother.
    + rewrite isSameTrustBoundaryNetworkOnly_normalized.
      unfold normalizedBoundary. by rewrite Hmine, Hother.
  - unfold isSameExecutionEnvironment. rewrite !lookupOk_directBoundary.
    by intros [[[b ->] ->] | [-> [b ->]]].
  - rewrite isSameTrustBoundaryNetworkOnly_normalized.
    by intros [[[b ->] ->] | [-> [b ->]]].
Qed.

Lemma same_boundary_absent_cases_witness :
  (isSameExecutionEnvironment sampleModel assetZ "v" = Returns true
   /\ isSameTrustBoundaryNetworkOnly sampleModel assetZ "v" = true)
  /\ isSameExecutionEnvironment sampleModel assetX "v" = Returns false
  /\ isSameTrustBoundaryNetworkOnly sampleModel assetX "v" = false.
Proof.
  split; [| split].
  - apply (proj1 (same_boundary_absent_cases sampleModel assetZ "v")); reflexivity.
  - apply (proj1 (proj2 (same_boundary_absent_cases sampleModel assetX "v"))).
    left. split; [by eexists | reflexivity].
  - apply (proj2 (proj2 (same_boundary_absent_cases sampleModel assetX "v"))).
    left. split; [by eexists | reflexivity].
Defined.

(** ** Iteration order *)

Lemma SortedTechnicalAssetIDs_Permutation m :
  SortedTechnicalAssetIDs m ≡ₚ (map_to_list (TechnicalAssets m)).*1.
Proof. apply merge_sort_Permutation. Qed.

Lemma elem_of_SortedTechnicalAssetIDs m k :
  k ∈ SortedTechnicalAssetIDs m <-> is_Some (TechnicalAssets m !! k).
Proof.
  rewrite SortedTechnicalAssetIDs_Permutation, list_elem_of_fmap. split.
  - intros [[k' a] [-> Hin]]. apply elem_of_map_to_list in Hin. by exists a.
  - intros [a Ha]. exists (k, a). split; [done |]. by apply elem_of_map_to_list.
Qed.

Lemma SortedTechnicalAssetIDs_sorted m :
  StronglySorted String.le (SortedTechnicalAssetIDs m).
Proof. apply StronglySorted_merge_sort; apply _. Qed.

Lemma NoDup_SortedTechnicalAssetIDs m : NoDup (SortedTechnicalAssetIDs m).
Proof.
  rewrite SortedTechnicalAssetIDs_Permutation. apply NoDup_fst_map_to_list.
Qed.

Lemma SortedTechnicalAssetIDs_present m :
  Forall (fun k => is_Some (TechnicalAssets m !! k)) (SortedTechnicalAssetIDs m).
Proof. apply Forall_forall. intros k. apply elem_of_SortedTechnicalAssetIDs. Qed.

Lemma elem_of_sortedAssets m a :
  a ∈ sortedAssets m <-> exists k, TechnicalAssets m !! k = Some a.
Proof.
  unfold sortedAssets, assetsAt. rewrite list_elem_of_omap. split.
  - intros (k & _ & Hk). by exists k.
  - intros [k Hk]. exists k. split; [| done].
    apply elem_of_SortedTechnicalAssetIDs. by exists a.
Qed.

Lemma omap_lookup_entries (m : gmap string TechnicalAsset) (l : list (string * TechnicalAsset)) :
  Forall (fun e => m !! e.1 = Some e.2) l ->
  omap (fun k => m !! k) (l.*1) = l.*2.
Proof.
  induction 1 as [| [k a] l Hk _ IH]; [done |].
  cbn in *. by rewrite Hk, IH.
Qed.

(** Every entry of [TechnicalAssets] is visited once. *)
Lemma sortedAssets_Permutation m :
  sortedAssets m ≡ₚ (map_to_list (TechnicalAssets m)).*2.
Proof.
  unfold sortedAssets, assetsAt.
  rewrite SortedTechnicalAssetIDs_Permutation.
  rewrite omap_lookup_entries; [done |].
  apply Forall_forall. intros [k a] Hin. by apply elem_of_map_to_list.
Qed.

(** ** Risk generation *)

Lemma assetsAt_cons m id rest :
  assetsAt m (id :: rest)
  = match TechnicalAssets m !! id with
    | Some a => a :: assetsAt m rest
    | None => assetsAt m rest
    end.
Proof. reflexivity. Qed.

Lemma GenerateRisks_loop_spec calc m ids risks :
  Forall (fun k => is_Some (TechnicalAssets m !! k)) ids ->
  GenerateRisks_loop calc m ids risks
  = Returns (risks ++ (riskOf calc m <$> filter (fun a => skipAsset a = false) (assetsAt m ids))).
Proof.
  intros Hids. revert risks.
  induction Hids as [| id rest [a Ha] _ IH]; intros risks.
  - cbn. by rewrite app_nil_r.
  - cbn [GenerateRisks_loop]. rewrite assetsAt_cons, Ha.
    cbn [deref obind]. fold (riskOf calc m a).
    destruct (skipAsset a) eqn:Hskip.
    + rewrite filter_cons_False by congruence. apply IH.
    + rewrite filter_cons_True by done. rewrite IH, fmap_cons, <- app_assoc. done.
Qed.

Lemma GenerateRisks_spec calc m :
  GenerateRisks calc m
  = Returns (riskOf calc m <$> filter (fun a => skipAsset a = false) (sortedAssets m), None).
Proof.
  unfold GenerateRisks.
  by rewrite GenerateRisks_loop_spec by apply SortedTechnicalAssetIDs_present.
Qed.

Lemma riskOf_MostRelevantTechnicalAssetId calc m a :
  MostRelevantTechnicalAssetId (riskOf calc m a) = Id a.
Proof. unfold riskOf. by destruct (IsTaggedWithAny a _). Qed.

Lemma riskOf_SyntheticId calc m a :
  SyntheticId (riskOf calc m a) = ID Category +:+ "@" +:+ Id a.
Proof. unfold riskOf. by destruct (IsTaggedWithAny a _). Qed.

Lemma riskOf_ExploitationImpact calc m a :
  ExploitationImpact (riskOf calc m a)
  = impactTierSpec (HighestProcessedConfidentiality m a)
                   (HighestProcessedIntegrity m a)
                   (HighestProcessedAvailability m a).
Proof.
  unfold riskOf. destruct (IsTaggedWithAny a _); apply createRisk_ExploitationImpact.
Qed.

Lemma skipAsset_false a :
  ~ (OutOfScope a = true \/ GetAttribute (Technologies a) MayContainSecrets = false)
  <-> skipAsset a = false.
Proof.
  unfold skipAsset.
  destruct (OutOfScope a), (GetAttribute (Technologies a) MayContainSecrets); cbn;
    intuition congruence.
Qed.

Lemma risksFor_riskOf calc m a (l : list TechnicalAsset) :
  risksFor a (riskOf calc m <$> l)
  = riskOf calc m <$> filter (fun a' => Id a' = Id a) l.
Proof.
  unfold risksFor. induction l as [| a' l IH]; [done |].
  rewrite fmap_cons, !filter_cons, riskOf_MostRelevantTechnicalAssetId, IH.
  by destruct (decide (Id a' = Id a)).
Qed.

Lemma filter_Id_assetsAt_notin m k a ids :
  uniqueIds m -> TechnicalAssets m !! k = Some a -> k ∉ ids ->
  filter (fun a' => Id a' = Id a) (assetsAt m ids) = [].
Proof.
  intros Huniq Ha Hk.
  induction ids as [| id rest IH]; [done |].
  apply not_elem_of_cons in Hk as [Hne Hk]. rewrite assetsAt_cons.
  destruct (TechnicalAssets m !! id) as [a' |] eqn:Ha'; [| by apply IH].
  rewrite filter_cons_False; [by apply IH |].
  intros Hid. apply Hne. symmetry. by eapply Huniq.
Qed.

Lemma filter_Id_assetsAt m k a ids :
  uniqueIds m -> NoDup ids -> TechnicalAssets m !! k = Some a -> k ∈ ids ->
  filter (fun a' => Id a' = Id a) (assetsAt m ids) = [a].
Proof.
  intros Huniq Hnd Ha.
  induction Hnd as [| id rest Hnotin Hnd IH]; intros Hk; [by apply elem_of_nil in Hk |].
  rewrite assetsAt_cons. apply elem_of_cons in Hk as [<- | Hk].
  - rewrite Ha. rewrite filter_cons_True by done.
    f_equal. by eapply filter_Id_assetsAt_notin.
  - destruct (TechnicalAssets m !! id) as [a' |] eqn:Ha'; [| by apply IH].
    rewrite filter_cons_False; [by apply IH |].
    intros Hid. apply Hnotin. by rewrite (Huniq _ _ _ _ Ha' Ha Hid).
Qed.

Lemma risksFor_GenerateRisks calc m k a :
  uniqueIds m -> TechnicalAssets m !! k = Some a ->
  risksFor a (riskOf calc m <$> filter (fun a' => skipAsset a' = false) (sortedAssets m))
  = if skipAsset a then [] else [riskOf calc m a].
Proof.
  intros Huniq Ha.
  rewrite risksFor_riskOf, list_filter_filter.
  rewrite (list_filter_iff _ (fun a' => skipAsset a' = false /\ Id a' = Id a)) by tauto.
  rewrite <- list_filter_filter.
  unfold sortedAssets.
  rewrite (filter_Id_assetsAt m k a); [| done | apply NoDup_SortedTechnicalAssetIDs | done |].
  - rewrite filter_cons, filter_nil. destruct (skipAsset a); by case_decide.
  - apply elem_of_SortedTechnicalAssetIDs. by exists a.
Qed.

(** C4: [GenerateRisks] produces no risk for a technical asset that is out of
    scope or whose technologies lack the may-contain-secrets attribute, and
    exactly one risk for every other technical asset, with synthetic
    identifier category ID, "@", asset Id.  First entry by entry, in the
    order of the ids: the risks stand one to one against the assets that pass
    the filter.  Then by counting, in a model with unique asset identities. *)
Theorem GenerateRisks_one_risk_per_applicable_asset :
  forall calc (m : Model),
    exists risks,
      GenerateRisks calc m = Returns (risks, None)
      /\ Forall2 (fun r a => MostRelevantTechnicalAssetId r = Id a
                             /\ SyntheticId r = ID Category +:+ "@" +:+ Id a)
                 risks
                 (filter (fun a => ~ (OutOfScope a = true
                                      \/ GetAttribute (Technologies a) MayContainSecrets = false))
                         (sortedAssets m))
      /\ (uniqueIds m ->
          forall k a,
            TechnicalAssets m !! k = Some a ->
            ((OutOfScope a = true \/ GetAttribute (Technologies a) MayContainSecrets = false) ->
             risksFor a risks = [])
            /\ (~ (OutOfScope a = true \/ GetAttribute (Technologies a) MayContainSecrets = false) ->
                exists r, risksFor a risks = [r]
                          /\ SyntheticId r = ID Category +:+ "@" +:+ Id a)).
Proof.
  intros calc m. eexists. split; [apply GenerateRisks_spec |]. split.
  - rewrite (list_filter_iff
               (fun a => ~ (OutOfScope a = true
                            \/ GetAttribute (Technologies a) MayContainSecrets = false))
               (fun a => skipAsset a = false))
      by (intros a; apply skipAsset_false).
    apply Forall2_fmap_l, Forall_Forall2_diag, Forall_forall. intros a _.
    split; [apply riskOf_MostRelevantTechnicalAssetId | apply riskOf_SyntheticId].
  - intros Huniq k a Ha. rewrite (risksFor_GenerateRisks calc m k a Huniq Ha).
    split.
    + intros Hskip. destruct (skipAsset a) eqn:Hs; [done |].
      by apply skipAsset_false in Hs.
    + intros Hno. apply skipAsset_false in Hno as ->.
      eexists. split; [done | apply riskOf_SyntheticId].
Qed.

Lemma keyed_by_Id_uniqueIds m :
  map_Forall (fun k a => Id a = k) (TechnicalAssets m) -> uniqueIds m.
Proof.
  intros Hkeyed k1 k2 a1 a2 H1 H2 Hid.
  by rewrite <- (Hkeyed _ _ H1), <- (Hkeyed _ _ H2).
Qed.

Lemma GenerateRisks_one_risk_per_applicable_asset_witness :
  exists risks,
    GenerateRisks sampleSeverity sampleModel = Returns (risks, None)
    /\ risksFor assetY risks = []
    /\ risksFor assetZ risks = []
    /\ exists r, risksFor assetX risks = [r]
                 /\ SyntheticId r = "accidental-secret-leak@x".
Proof.
  destruct (GenerateRisks_one_risk_per_applicable_asset sampleSeverity sampleModel)
    as (risks & Hgen & _ & Hcount).
  assert (Huniq : uniqueIds sampleModel).
  { apply keyed_by_Id_uniqueIds. apply (bool_decide_unpack _). vm_compute. exact I. }
  exists risks. split; [exact Hgen |]. split; [| split].
  - apply (proj1 (Hcount Huniq "y" assetY eq_refl)). left. reflexivity.
  - apply (proj1 (Hcount Huniq "z" assetZ eq_refl)). right. reflexivity.
  - apply (proj2 (Hcount Huniq "x" assetX eq_refl)).
    vm_compute. intros [H | H]; discriminate.
Defined.

(** C10: [GenerateRisks] returns, and its error result is nil, whatever the
    model holds. *)
Theorem GenerateRisks_error_nil :
  forall calc (m : Model), exists risks, GenerateRisks calc m = Returns (risks, None).
Proof. intros calc m. eexists. apply GenerateRisks_spec. Qed.

Lemma IsTaggedWithAny_git a : "git" ∈ Tags a -> IsTaggedWithAny a ["git"] = true.
Proof.
  intros Hin. unfold IsTaggedWithAny, containsCaseInsensitiveAny.
  apply existsb_exists. exists "git". split; [by apply list_elem_of_In |].
  reflexivity.
Qed.

Lemma string_app_assoc (s1 s2 s3 : string) :
  (s1 +:+ s2) +:+ s3 = s1 +:+ (s2 +:+ s3).
Proof.
  induction s1 as [| c s1 IH]; [done |].
  change (String c ((s1 +:+ s2) +:+ s3) = String c (s1 +:+ (s2 +:+ s3))).
  by rewrite IH.
Qed.

Lemma createRisk_Git_title calc m a :
  containsString (RiskTitle (createRisk calc m a "Git" "Git Leak Prevention")) "(Git)".
Proof.
  exists "<b>Accidental Secret Leak ",
         ("</b> risk at <b>" +:+ Title a +:+ "</b>: <u>Git Leak Prevention</u>").
  cbn. rewrite !string_app_assoc. reflexivity.
Qed.

(** C9: a model with an in-scope asset tagged "git" whose technologies may
    contain secrets and whose highest processed confidentiality is
    StrictlyConfidential gets exactly one risk for that asset: impact High,
    likelihood Unlikely, severity from Unlikely and High, title containing
    "(Git)". *)
Theorem GenerateRisks_git_scenario :
  forall calc (m : Model) (k : string) (x : TechnicalAsset),
    uniqueIds m ->
    TechnicalAssets m !! k = Some x ->
    OutOfScope x = false ->
    "git" ∈ Tags x ->
    GetAttribute (Technologies x) MayContainSecrets = true ->
    HighestProcessedConfidentiality m x = StrictlyConfidential ->
    exists risks r,
      GenerateRisks calc m = Returns (risks, None)
      /\ risksFor x risks = [r]
      /\ ExploitationImpact r = HighImpact
      /\ ExploitationLikelihood r = Unlikely
      /\ Severity r = calc Unlikely HighImpact
      /\ containsString (RiskTitle r) "(Git)".
Proof.
  intros calc m k x Huniq Hx Hscope Htag Hsecrets Hconf.
  exists (riskOf calc m <$> filter (fun a => skipAsset a = false) (sortedAssets m)),
         (createRisk calc m x "Git" "Git Leak Prevention").
  assert (Himpact : ExploitationImpact (createRisk calc m x "Git" "Git Leak Prevention")
                    = HighImpact).
  { rewrite createRisk_ExploitationImpact, Hconf. reflexivity. }
  split; [apply GenerateRisks_spec |]. split; [| split; [| split; [| split]]].
  - rewrite (risksFor_GenerateRisks calc m k x Huniq Hx).
    unfold skipAsset, riskOf. by rewrite Hscope, Hsecrets, IsTaggedWithAny_git.
  - done.
  - done.
  - by rewrite createRisk_severity, Himpact.
  - apply createRisk_Git_title.
Qed.

Lemma GenerateRisks_git_scenario_witness :
  exists risks r,
    GenerateRisks sampleSeverity sampleModel = Returns (risks, None)
    /\ risksFor assetX risks = [r]
    /\ ExploitationImpact r = HighImpact
    /\ ExploitationLikelihood r = Unlikely
    /\ Severity r = sampleSeverity Unlikely HighImpact
    /\ containsString (RiskTitle r) "(Git)".
Proof.
  apply (GenerateRisks_git_scenario sampleSeverity sampleModel "x" assetX).
  - apply keyed_by_Id_uniqueIds. apply (bool_decide_unpack _). vm_compute. exact I.
  - reflexivity.
  - reflexivity.
  - vm_compute. left.
  - reflexivity.
  - reflexivity.
Defined.

(** ** Matching *)

Lemma EqualFold_refl s : EqualFold s s = true.
Proof. apply String.eqb_refl. Qed.

Lemma matchesRisk_wildcard a : matchesRisk (ID Category +:+ "@*") a = true.
Proof. unfold matchesRisk. by rewrite EqualFold_refl, orb_true_r. Qed.

Lemma MatchRisk_loop_wildcard m ids :
  Forall (fun k => is_Some (TechnicalAssets m !! k)) ids ->
  MatchRisk_loop m (ID Category +:+ "@*") ids
  = Returns (match ids with [] => false | _ :: _ => true end).
Proof.
  intros Hids. destruct Hids as [| id rest [a Ha] _]; [done |].
  cbn [MatchRisk_loop]. rewrite Ha. cbn [deref obind].
  fold (matchesRisk (ID Category +:+ "@*") a).
  by rewrite matchesRisk_wildcard.
Qed.

(** C3, as the code has it: the wildcard identifier matches exactly when the
    model has a technical asset at all; [MatchRisk] looks neither at the scope
    nor at the technologies of the assets. *)
Theorem MatchRisk_wildcard :
  forall m : Model,
    MatchRisk m (ID Category +:+ "@*") = Returns true
    <-> exists k a, TechnicalAssets m !! k = Some a.
Proof.
  intros m. unfold MatchRisk.
  rewrite MatchRisk_loop_wildcard by apply SortedTechnicalAssetIDs_present.
  destruct (SortedTechnicalAssetIDs m) as [| id rest] eqn:Hids.
  - split; [done |]. intros (k & a & Ha).
    assert (Hin : k ∈ SortedTechnicalAssetIDs m)
      by (apply elem_of_SortedTechnicalAssetIDs; by exists a).
    rewrite Hids in Hin. by apply elem_of_nil in Hin.
  - split; [intros _ | done].
    assert (Hin : id ∈ SortedTechnicalAssetIDs m) by (rewrite Hids; left).
    apply elem_of_SortedTechnicalAssetIDs in Hin as [a Ha]. by exists id, a.
Qed.

(** C3, as stated, fails: a model whose only asset is out of scope has no
    in-scope applicable asset, and the wildcard identifier matches all the
    same. *)
Lemma MatchRisk_wildcard_ignores_applicability :
  MatchRisk outOfScopeModel (ID Category +:+ "@*") = Returns true
  /\ ~ (exists k a, TechnicalAssets outOfScopeModel !! k = Some a
                   /\ OutOfScope a = false /\ skipAsset a = false).
Proof.
  split; [reflexivity |].
  intros (k & a & Ha & Hscope & _). cbn in Ha.
  apply lookup_insert_Some in Ha as [[_ <-] | [_ Ha]]; [discriminate |].
  by rewrite lookup_empty in Ha.
Qed.

(** ** Explanation *)

Lemma reportedFrom_app cur l1 l2 :
  reportedFrom cur (l1 ++ l2)
  = reportedFrom cur l1 ++ reportedFrom (currentAfter cur l1) l2.
Proof.
  revert cur. induction l1 as [| l l1 IH]; intros cur; [done |].
  cbn [app reportedFrom currentAfter].
  destruct (assetOfLine l) as [id |]; [apply IH |].
  destruct (impactOfLine l) as [i |], cur as [id |]; rewrite IH; done.
Qed.

Lemma reportedFrom_block (acc re : list Line) (sep tagged : bool) id b ts :
  let opened :=
    (if sep then acc ++ [Lit ""] else acc) ++
    [ Sprintf "technical asset %q" [VString id];
      Sprintf "  - out of scope: %v (=false)" [VBool b];
      Sprintf "  - technology: %v (has either [%q, %q])"
              [VTechnologies ts; VAttribute SourcecodeRepository; VAttribute ArtifactRegistry] ] in
  reportedFrom None
    ((if tagged then opened ++ [Lit "  is tagged with 'git'"] else opened) ++ re)
  = reportedFrom None acc ++ reportedFrom (Some id) re.
Proof.
  destruct sep, tagged; cbn zeta; rewrite <- ?app_assoc;
    rewrite reportedFrom_app; reflexivity.
Qed.

Lemma explainRisk_reported m a id :
  exists ls,
    explainRisk m a = Some ls
    /\ reportedFrom (Some id) ls
       = [(id, impactTierSpec (HighestProcessedConfidentiality m a)
                              (HighestProcessedIntegrity m a)
                              (HighestProcessedAvailability m a))].
Proof.
  unfold explainRisk, impactTierSpec.
  destruct (HighestProcessedConfidentiality m a),
           (HighestProcessedIntegrity m a),
           (HighestProcessedAvailability m a);
    eexists; (split; [reflexivity | reflexivity]).
Qed.

Lemma ExplainRisk_loop_reported m risk ids acc :
  Forall (fun k => is_Some (TechnicalAssets m !! k)) ids ->
  exists ls,
    ExplainRisk_loop m risk ids acc = Returns ls
    /\ reportedFrom None ls
       = reportedFrom None acc ++
         ((fun a => (Id a, impactTierSpec (HighestProcessedConfidentiality m a)
                                          (HighestProcessedIntegrity m a)
                                          (HighestProcessedAvailability m a)))
          <$> filter (fun a => matchesRisk risk a && explainable a = true) (assetsAt m ids)).
Proof.
  intros Hids. revert acc.
  induction Hids as [| id rest [a Ha] _ IH]; intros acc.
  - exists acc. split; [done |]. cbn. by rewrite app_nil_r.
  - cbn [ExplainRisk_loop]. rewrite assetsAt_cons, Ha. cbn [deref obind].
    fold (matchesRisk risk a). fold (explainable a).
    destruct (matchesRisk risk a) eqn:Hmatch; cbn [andb].
    2: { rewrite filter_cons_False by (by rewrite Hmatch). apply IH. }
    destruct (explainable a) eqn:Hexpl.
    2: { rewrite filter_cons_False by (by rewrite Hmatch, Hexpl). apply IH. }
    rewrite filter_cons_True by (by rewrite Hmatch, Hexpl).
    destruct (explainRisk_reported m a (Id a)) as (re & -> & Hre).
    match goal with
    | |- exists ls, ExplainRisk_loop _ _ _ ?acc' = _ /\ _ =>
        destruct (IH acc') as (ls & Hls & Hrep)
    end.
    exists ls. split; [done |].
    rewrite Hrep, reportedFrom_block, Hre, fmap_cons, <- app_assoc. done.
Qed.

Lemma ExplainRisk_reported m risk :
  exists ls,
    ExplainRisk m risk = Returns ls
    /\ reportedFrom None ls
       = (fun a => (Id a, impactTierSpec (HighestProcessedConfidentiality m a)
                                         (HighestProcessedIntegrity m a)
                                         (HighestProcessedAvailability m a)))
         <$> filter (fun a => matchesRisk risk a && explainable a = true) (sortedAssets m).
Proof.
  apply (ExplainRisk_loop_reported m risk _ []), SortedTechnicalAssetIDs_present.
Qed.

Lemma uniqueIds_same_asset m k a a' :
  uniqueIds m -> TechnicalAssets m !! k = Some a -> a' ∈ sortedAssets m ->
  Id a' = Id a -> a' = a.
Proof.
  intros Huniq Ha Hin Hid. apply elem_of_sortedAssets in Hin as [k' Ha'].
  rewrite (Huniq _ _ _ _ Ha' Ha Hid) in Ha'. congruence.
Qed.

(** Where the two filters agree.  In a model with unique asset identities,
    for a risk that [GenerateRisks] produced for an asset that is a sourcecode
    repository or an artifact registry, [ExplainRisk] on the risk's synthetic
    identifier reports for that asset one impact tier and no other: the tier
    [createRisk] stored in the risk and computed its severity from. *)
Theorem ExplainRisk_agrees_with_GenerateRisks :
  forall calc (m : Model) (risks : list Risk) (r : Risk) (k : string) (a : TechnicalAsset),
    uniqueIds m ->
    GenerateRisks calc m = Returns (risks, None) ->
    r ∈ risks ->
    TechnicalAssets m !! k = Some a ->
    Id a = MostRelevantTechnicalAssetId r ->
    GetAttribute (Technologies a) SourcecodeRepository = true
    \/ GetAttribute (Technologies a) ArtifactRegistry = true ->
    Severity r = calc Unlikely (ExploitationImpact r)
    /\ forall t, (Id a, t) ∈ reportedImpacts (ExplainRisk m (SyntheticId r))
                 <-> t = ExploitationImpact r.
Proof.
  intros calc m risks r k a Huniq Hgen Hr Ha Hid Htech.
  rewrite GenerateRisks_spec in Hgen. injection Hgen as <-.
  apply list_elem_of_fmap in Hr as (a' & -> & Ha').
  apply list_elem_of_filter in Ha' as [Hskip Ha'].
  rewrite riskOf_MostRelevantTechnicalAssetId in Hid.
  assert (a' = a) as -> by (by eapply uniqueIds_same_asset).
  split.
  { unfold riskOf. destruct (IsTaggedWithAny a _); apply createRisk_severity. }
  intros t. rewrite riskOf_SyntheticId, riskOf_ExploitationImpact.
  destruct (ExplainRisk_reported m (ID Category +:+ "@" +:+ Id a)) as (ls & -> & Hls).
  cbn [reportedImpacts]. rewrite Hls, list_elem_of_fmap. split.
  - intros (a' & [= Hid' ->] & Hin).
    apply list_elem_of_filter in Hin as [_ Hin].
    by rewrite (uniqueIds_same_asset m k a a' Huniq Ha Hin).
  - intros ->. exists a. split; [done |].
    apply list_elem_of_filter. split; [| done].
    apply andb_true_iff. split.
    + unfold matchesRisk. by rewrite EqualFold_refl.
    + unfold explainable. unfold skipAsset in Hskip.
      apply orb_false_iff in Hskip as [-> _]. cbn.
      destruct Htech as [-> | ->]; [done | by rewrite orb_true_r].
Qed.

Lemma ExplainRisk_agrees_with_GenerateRisks_witness :
  Severity (riskOf sampleSeverity sampleModel assetX)
  = sampleSeverity Unlikely (ExploitationImpact (riskOf sampleSeverity sampleModel assetX))
  /\ forall t,
       (Id assetX, t)
         ∈ reportedImpacts
             (ExplainRisk sampleModel (SyntheticId (riskOf sampleSeverity sampleModel assetX)))
       <-> t = ExploitationImpact (riskOf sampleSeverity sampleModel assetX).
Proof.
  apply (ExplainRisk_agrees_with_GenerateRisks sampleSeverity sampleModel
           [riskOf sampleSeverity sampleModel assetV; riskOf sampleSeverity sampleModel assetX]
           (riskOf sampleSeverity sampleModel assetX) "x" assetX).
  - apply keyed_by_Id_uniqueIds. apply (bool_decide_unpack _). vm_compute. exact I.
  - vm_compute. reflexivity.
  - right. left.
  - reflexivity.
  - reflexivity.
  - left. reflexivity.
Defined.

(** C1: [ExplainRisk] must report the impact tier of every risk that
    [GenerateRisks] produced, and the code does not.  [skipAsset] admits an
    asset on the may-contain-secrets attribute; the guard of [ExplainRisk]
    asks for a sourcecode repository or an artifact registry instead.  For an
    in-scope asset that has the first attribute and neither of the other two,
    [GenerateRisks] returns a risk, and [ExplainRisk] on that risk's
    synthetic identifier returns no line, hence no impact tier. *)
Lemma ExplainRisk_silent_for_generated_risk :
  GenerateRisks sampleSeverity vaultModel
  = Returns ([riskOf sampleSeverity vaultModel assetV], None)
  /\ ExplainRisk vaultModel (SyntheticId (riskOf sampleSeverity vaultModel assetV)) = Returns []
  /\ reportedImpacts
       (ExplainRisk vaultModel (SyntheticId (riskOf sampleSeverity vaultModel assetV))) = [].
Proof. repeat split; vm_compute; reflexivity. Qed.

(** * Further properties of the trust-boundary helpers *)

Lemma isAcrossTrustBoundaryNetworkOnly_eval m link :
  isAcrossTrustBoundaryNetworkOnly m link
  = Returns
      match directBoundary m (SourceId link), directBoundary m (TargetId link) with
      | Some s, Some t =>
          bool_decide (networkOnlyContext m s)
          && (bool_decide (networkOnlyContext m t)
              && (bool_decide (TrustBoundary_Id s <> TrustBoundary_Id t)
                  && IsNetworkBoundary (TrustBoundary_Type t)))
      | _, _ => false
      end.
Proof.
  unfold isAcrossTrustBoundaryNetworkOnly. rewrite !lookupOk_directBoundary.
  destruct (directBoundary m (SourceId link)) as [s |];
    cbn -[isNetworkOnly isAcrossNetworkTrustBoundary]; [| done].
  rewrite isNetworkOnly_Some; cbn -[isNetworkOnly isAcrossNetworkTrustBoundary].
  destruct (bool_decide (networkOnlyContext m s));
    cbn -[isNetworkOnly isAcrossNetworkTrustBoundary];
    [| by destruct (directBoundary m (TargetId link))].
  destruct (directBoundary m (TargetId link)) as [t |];
    cbn -[isNetworkOnly isAcrossNetworkTrustBoundary]; [| done].
  rewrite isNetworkOnly_Some; cbn -[isNetworkOnly isAcrossNetworkTrustBoundary].
  destruct (bool_decide (networkOnlyContext m t));
    cbn -[isNetworkOnly isAcrossNetworkTrustBoundary]; [| done].
  apply isAcrossNetworkTrustBoundary_Some.
Qed.

Lemma isSameExecutionEnvironment_eval m ta other :
  isSameExecutionEnvironment m ta other
  = Returns
      match directBoundary m (Id ta), directBoundary m other with
      | None, None => true
      | Some a, Some b =>
          bool_decide (TrustBoundary_Type a = ExecutionEnvironment)
          && (bool_decide (TrustBoundary_Type b = ExecutionEnvironment)
              && String.eqb (TrustBoundary_Id a) (TrustBoundary_Id b))
      | _, _ => false
      end.
Proof.
  unfold isSameExecutionEnvironment. rewrite !lookupOk_directBoundary.
  destruct (directBoundary m (Id ta)) as [a |], (directBoundary m other) as [b |];
    cbn; try done.
  destruct (bool_decide (TrustBoundary_Type a = ExecutionEnvironment)); cbn; [| done].
  by destruct (bool_decide (TrustBoundary_Type b = ExecutionEnvironment)).
Qed.

(** X1: [isNetworkOnly] answers false without looking at the pointer when
    the ok flag is false, panics on a nil pointer flagged ok, and answers
    true exactly for a present boundary that is a network-only context. *)
Theorem isNetworkOnly_cases :
  forall (m : Model) (ok : bool) (p : option TrustBoundary),
    (ok = false -> isNetworkOnly m ok p = Returns false)
    /\ (ok = true -> p = None -> isNetworkOnly m ok p = Panics)
    /\ (isNetworkOnly m ok p = Returns true
        <-> ok = true /\ exists b, p = Some b /\ networkOnlyContext m b).
Proof.
  intros m ok p. split; [by intros -> | split; [by intros -> -> |]].
  destruct ok; [| split; [done | by intros [? _]]].
  destruct p as [b |]; [| split; [done | by intros (_ & ? & ? & _)]].
  rewrite isNetworkOnly_Some. split.
  - intros [= H]. apply bool_decide_eq_true_1 in H. eauto.
  - intros (_ & b' & [= <-] & H). by rewrite bool_decide_eq_true_2.
Qed.

Lemma isNetworkOnly_cases_witness :
  isNetworkOnly sampleModel false None = Returns false
  /\ isNetworkOnly sampleModel true None = Panics
  /\ isNetworkOnly sampleModel true (Some podBoundary) = Returns true.
Proof.
  split; [| split].
  - apply (proj1 (isNetworkOnly_cases sampleModel false None)). reflexivity.
  - apply (proj1 (proj2 (isNetworkOnly_cases sampleModel true None))); reflexivity.
  - apply (proj2 (proj2 (isNetworkOnly_cases sampleModel true (Some podBoundary)))).
    split; [reflexivity |]. exists podBoundary. split; [reflexivity |].
    right. split; reflexivity.
Defined.

(** X2: [isAcrossNetworkTrustBoundary] is irreflexive, and panics when either
    pointer is nil. *)
Theorem isAcrossNetworkTrustBoundary_irreflexive :
  forall (a : TrustBoundary) (p : option TrustBoundary),
    isAcrossNetworkTrustBoundary (Some a) (Some a) = Returns false
    /\ isAcrossNetworkTrustBoundary None p = Panics
    /\ isAcrossNetworkTrustBoundary p None = Panics.
Proof.
  intros a p. split; [| split].
  - unfold isAcrossNetworkTrustBoundary; cbn. by rewrite String.eqb_refl.
  - reflexivity.
  - by destruct p.
Qed.

(** X3: a link whose two ends have boundaries of the same identity (a link
    from an asset to itself, or within one boundary) is never across, and
    neither is a link whose target sits directly in a boundary that is not
    network-typed, parent or no parent. *)
Theorem isAcrossTrustBoundaryNetworkOnly_never :
  forall (m : Model) (link : CommunicationLink) (s t : TrustBoundary),
    directBoundary m (SourceId link) = Some s ->
    directBoundary m (TargetId link) = Some t ->
    TrustBoundary_Id s = TrustBoundary_Id t
    \/ IsNetworkBoundary (TrustBoundary_Type t) = false ->
    isAcrossTrustBoundaryNetworkOnly m link = Returns false.
Proof.
  intros m link s t Hs Ht Hcase.
  rewrite isAcrossTrustBoundaryNetworkOnly_eval, Hs, Ht. f_equal.
  destruct (bool_decide (networkOnlyContext m s)); [| done].
  destruct (bool_decide (networkOnlyContext m t)); [| done]. cbn.
  destruct Hcase as [Hid | ->].
  - by rewrite bool_decide_eq_false_2 by (intros H; by apply H).
  - by rewrite andb_false_r.
Qed.

Lemma isAcrossTrustBoundaryNetworkOnly_never_witness :
  isAcrossTrustBoundaryNetworkOnly sampleModel (mkCommunicationLink "x" "x") = Returns false.
Proof.
  apply (isAcrossTrustBoundaryNetworkOnly_never sampleModel (mkCommunicationLink "x" "x")
           lanBoundary lanBoundary); [reflexivity | reflexivity | left; reflexivity].
Defined.

(** X4: [isSameExecutionEnvironment] always returns, and returns true exactly
    when neither asset has a direct boundary or both have one, both
    boundaries are execution environments and their identities are equal. *)
Theorem isSameExecutionEnvironment_iff :
  forall (m : Model) (ta : TechnicalAsset) (otherAssetId : string),
    (exists r, isSameExecutionEnvironment m ta otherAssetId = Returns r)
    /\ (isSameExecutionEnvironment m ta otherAssetId = Returns true
        <-> (directBoundary m (Id ta) = None /\ directBoundary m otherAssetId = None)
            \/ exists a b,
                 directBoundary m (Id ta) = Some a
                 /\ directBoundary m otherAssetId = Some b
                 /\ TrustBoundary_Type a = ExecutionEnvironment
                 /\ TrustBoundary_Type b = ExecutionEnvironment
                 /\ TrustBoundary_Id a = TrustBoundary_Id b).
Proof.
  intros m ta other. rewrite isSameExecutionEnvironment_eval.
  split; [by eexists |].
  destruct (directBoundary m (Id ta)) as [a |], (directBoundary m other) as [b |].
  - split.
    + intros [= H]. right. exists a, b.
      apply andb_true_iff in H as [Ha H]. apply andb_true_iff in H as [Hb H].
      apply bool_decide_eq_true_1 in Ha, Hb. apply String.eqb_eq in H. done.
    + intros [[? _] | (a' & b' & [= <-] & [= <-] & Ha & Hb & Hid)]; [done |].
      rewrite !bool_decide_eq_true_2 by done. cbn. f_equal. by apply String.eqb_eq.
  - split; [done |]. intros [[? _] | (? & ? & _ & ? & _)]; done.
  - split; [done |]. intros [[_ ?] | (? & ? & ? & _)]; done.
  - split; [intros _; by left | done].
Qed.

(** X5: [isSameExecutionEnvironment] is symmetric and transitive, but not
    reflexive: an asset is in its own execution environment exactly when it
    has no direct boundary or its direct boundary is an execution
    environment. *)
Theorem isSameExecutionEnvironment_partial_equivalence :
  forall (m : Model) (a b c : TechnicalAsset),
    isSameExecutionEnvironment m a (Id b) = isSameExecutionEnvironment m b (Id a)
    /\ (isSameExecutionEnvironment m a (Id b) = Returns true ->
        isSameExecutionEnvironment m b (Id c) = Returns true ->
        isSameExecutionEnvironment m a (Id c) = Returns true)
    /\ (isSameExecutionEnvironment m a (Id a) = Returns true
        <-> directBoundary m (Id a) = None
            \/ exists t, directBoundary m (Id a) = Some t
                         /\ TrustBoundary_Type t = ExecutionEnvironment).
Proof.
  intros m a b c. rewrite !isSameExecutionEnvironment_eval.
  destruct (directBoundary m (Id a)) as [ta |] eqn:Ha,
           (directBoundary m (Id b)) as [tb |] eqn:Hb,
           (directBoundary m (Id c)) as [tc |] eqn:Hc;
    (split; [| split]); try done;
    try (by rewrite String.eqb_sym, andb_assoc,
              (andb_comm (bool_decide (TrustBoundary_Type ta = _))), <- andb_assoc);
    try (split; [intros _; by left | done]).
  all: try (intros [= H1] [= H2]; f_equal;
            apply andb_true_iff in H1 as [Hta H1]; apply andb_true_iff in H1 as [Htb H1];
            apply andb_true_iff in H2 as [_ H2]; apply andb_true_iff in H2 as [Htc H2];
            apply String.eqb_eq in H1, H2;
            rewrite Hta, Htc; cbn; apply String.eqb_eq; congruence).
  all: split.
  all: try (intros [= H]; right; exists ta; split; [done |];
            apply andb_true_iff in H as [H _]; by apply bool_decide_eq_true_1 in H).
  all: intros [? | (t & [= <-] & Ht)]; [done |];
       by rewrite bool_decide_eq_true_2, String.eqb_refl.
Qed.

Lemma isSameExecutionEnvironment_partial_equivalence_witness :
  isSameExecutionEnvironment sampleModel assetZ (Id assetZ) = Returns true
  /\ isSameExecutionEnvironment sampleModel assetX (Id assetX) = Returns false.
Proof.
  split.
  - apply (proj1 (proj2 (isSameExecutionEnvironment_partial_equivalence
                           sampleModel assetZ assetV assetZ))); reflexivity.
  - destruct (isSameExecutionEnvironment sampleModel assetX (Id assetX))
      as [[|] |] eqn:Hself; [| reflexivity | discriminate Hself].
    apply (proj2 (proj2 (isSameExecutionEnvironment_partial_equivalence
                           sampleModel assetX assetX assetX))) in Hself.
    exfalso. destruct Hself as [H | (t & H & Ht)].
    + discriminate H.
    + injection H as <-. discriminate Ht.
Defined.

(** X6: [isSameTrustBoundaryNetworkOnly] is an equivalence relation on the
    assets of a model: reflexive, symmetric and transitive. *)
Theorem isSameTrustBoundaryNetworkOnly_equivalence :
  forall (m : Model) (a b c : TechnicalAsset),
    isSameTrustBoundaryNetworkOnly m a (Id a) = true
    /\ isSameTrustBoundaryNetworkOnly m a (Id b) = isSameTrustBoundaryNetworkOnly m b (Id a)
    /\ (isSameTrustBoundaryNetworkOnly m a (Id b) = true ->
        isSameTrustBoundaryNetworkOnly m b (Id c) = true ->
        isSameTrustBoundaryNetworkOnly m a (Id c) = true).
Proof.
  intros m a b c. rewrite !isSameTrustBoundaryNetworkOnly_normalized.
  destruct (normalizedBoundary m (Id a)) as [ta |],
           (normalizedBoundary m (Id b)) as [tb |],
           (normalizedBoundary m (Id c)) as [tc |];
    (split; [| split]); try done;
    try apply String.eqb_refl; try apply String.eqb_sym.
  intros H1 H2. apply String.eqb_eq in H1, H2. apply String.eqb_eq. congruence.
Qed.

Lemma isSameTrustBoundaryNetworkOnly_equivalence_witness :
  isSameTrustBoundaryNetworkOnly sampleModel assetZ (Id assetZ) = true.
Proof.
  apply (proj2 (proj2 (isSameTrustBoundaryNetworkOnly_equivalence
                         sampleModel assetZ assetV assetZ))); reflexivity.
Defined.

(** X7: the two ends of a link that [isAcrossTrustBoundaryNetworkOnly]
    accepts are never in the same network-only trust boundary. *)
Theorem across_excludes_same_trust_boundary :
  forall (m : Model) (link : CommunicationLink) (ta : TechnicalAsset),
    Id ta = SourceId link ->
    isAcrossTrustBoundaryNetworkOnly m link = Returns true ->
    isSameTrustBoundaryNetworkOnly m ta (TargetId link) = false.
Proof.
  intros m link ta Hid Hacross.
  rewrite isAcrossTrustBoundaryNetworkOnly_eval in Hacross.
  rewrite isSameTrustBoundaryNetworkOnly_normalized, Hid. unfold normalizedBoundary.
  destruct (directBoundary m (SourceId link)) as [s |]; [| done].
  destruct (directBoundary m (TargetId link)) as [t |]; [| done].
  injection Hacross as H.
  apply andb_true_iff in H as [Hs H]. apply andb_true_iff in H as [_ H].
  apply andb_true_iff in H as [Hne ->].
  apply bool_decide_eq_true_1 in Hs, Hne.
  destruct Hs as [-> | [-> ->]]; [| done].
  by apply String.eqb_neq.
Qed.

Lemma across_excludes_same_trust_boundary_witness :
  isSameTrustBoundaryNetworkOnly sampleModel assetX "y" = false.
Proof.
  apply (across_excludes_same_trust_boundary sampleModel (mkCommunicationLink "x" "y") assetX);
    reflexivity.
Defined.

(** X8: two assets that [isSameExecutionEnvironment] accepts are also in the
    same network-only trust boundary. *)
Theorem same_execution_environment_same_trust_boundary :
  forall (m : Model) (ta : TechnicalAsset) (otherAssetId : string),
    isSameExecutionEnvironment m ta otherAssetId = Returns true ->
    isSameTrustBoundaryNetworkOnly m ta otherAssetId = true.
Proof.
  intros m ta other Hsame.
  rewrite isSameExecutionEnvironment_eval in Hsame.
  rewrite isSameTrustBoundaryNetworkOnly_normalized. unfold normalizedBoundary.
  destruct (directBoundary m (Id ta)) as [[ida tya] |],
           (directBoundary m other) as [[idb tyb] |]; try done.
  injection Hsame as H. cbn in H.
  apply andb_true_iff in H as [Ha H]. apply andb_true_iff in H as [Hb H].
  apply bool_decide_eq_true_1 in Ha, Hb. apply String.eqb_eq in H. subst. cbn.
  destruct (FindParentTrustBoundary m _); [apply String.eqb_refl | done].
Qed.

Lemma same_execution_environment_same_trust_boundary_witness :
  isSameTrustBoundaryNetworkOnly confidentialModel assetX "y" = true.
Proof.
  apply (same_execution_environment_same_trust_boundary confidentialModel assetX "y").
  reflexivity.
Defined.

(** * Further properties of the rule *)

Lemma MatchRisk_loop_eval m risk ids :
  Forall (fun k => is_Some (TechnicalAssets m !! k)) ids ->
  MatchRisk_loop m risk ids = Returns (existsb (matchesRisk risk) (assetsAt m ids)).
Proof.
  induction 1 as [| id rest [a Ha] _ IH]; [done |].
  cbn [MatchRisk_loop]. rewrite assetsAt_cons, Ha. cbn [deref obind existsb].
  fold (matchesRisk risk a). by destruct (matchesRisk risk a).
Qed.

Lemma MatchRisk_eval m risk :
  MatchRisk m risk = Returns (existsb (matchesRisk risk) (sortedAssets m)).
Proof. apply MatchRisk_loop_eval, SortedTechnicalAssetIDs_present. Qed.

Lemma existsb_sortedAssets m (f : TechnicalAsset -> bool) :
  existsb f (sortedAssets m) = true
  <-> exists k a, TechnicalAssets m !! k = Some a /\ f a = true.
Proof.
  rewrite existsb_exists. split.
  - intros (a & Hin & Hf).
    apply list_elem_of_In, elem_of_sortedAssets in Hin as [k Hk]. by exists k, a.
  - intros (k & a & Hk & Hf). exists a. split; [| done].
    apply list_elem_of_In, elem_of_sortedAssets. by exists k.
Qed.

(** X9: [MatchRisk] always returns; it returns true exactly when the model
    has an asset whose identifier, after the category ID and "@", equals the
    given string up to case folding, or when the string is the wildcard up to
    case folding and the model has an asset at all.  On a model without
    assets it is false for every string. *)
Theorem MatchRisk_iff :
  forall (m : Model) (risk : string),
    (exists r, MatchRisk m risk = Returns r)
    /\ (MatchRisk m risk = Returns true
        <-> exists k a,
              TechnicalAssets m !! k = Some a
              /\ (EqualFold risk (ID Category +:+ "@" +:+ Id a) = true
                  \/ EqualFold risk (ID Category +:+ "@*") = true)).
Proof.
  intros m risk. rewrite MatchRisk_eval. split; [by eexists |].
  split.
  - intros [= H]. apply existsb_sortedAssets in H as (k & a & Hk & H).
    exists k, a. split; [done |]. by apply orb_true_iff in H.
  - intros (k & a & Hk & H). f_equal. apply existsb_sortedAssets.
    exists k, a. split; [done |]. by apply orb_true_iff.
Qed.

(** X10: the synthetic identifier of every risk that [GenerateRisks]
    produces is matched by [MatchRisk] on the same model. *)
Theorem MatchRisk_accepts_generated_risks :
  forall calc (m : Model) (risks : list Risk) (r : Risk),
    GenerateRisks calc m = Returns (risks, None) ->
    r ∈ risks ->
    MatchRisk m (SyntheticId r) = Returns true.
Proof.
  intros calc m risks r Hgen Hr.
  rewrite GenerateRisks_spec in Hgen. injection Hgen as <-.
  apply list_elem_of_fmap in Hr as (a & -> & Ha).
  apply list_elem_of_filter in Ha as [_ Ha].
  apply elem_of_sortedAssets in Ha as [k Hk].
  rewrite MatchRisk_eval. f_equal. apply existsb_sortedAssets.
  exists k, a. split; [done |].
  unfold matchesRisk. by rewrite riskOf_SyntheticId, EqualFold_refl.
Qed.

Lemma MatchRisk_accepts_generated_risks_witness :
  MatchRisk sampleModel (SyntheticId (riskOf sampleSeverity sampleModel assetV)) = Returns true.
Proof.
  apply (MatchRisk_accepts_generated_risks sampleSeverity sampleModel
           [riskOf sampleSeverity sampleModel assetV; riskOf sampleSeverity sampleModel assetX]).
  - vm_compute. reflexivity.
  - left.
Defined.

Section FoldedIdentifiers.

Variable equalFold : string -> string -> bool.
Hypothesis equalFold_sym : forall x y, equalFold x y = equalFold y x.
Hypothesis equalFold_trans :
  forall x y z, equalFold x y = true -> equalFold y z = true -> equalFold x z = true.

Lemma equalFold_left s s' t : equalFold s s' = true -> equalFold s t = equalFold s' t.
Proof.
  intros H. apply eq_true_iff_eq. split; intros Ht.
  - apply (equalFold_trans s' s t); [by rewrite equalFold_sym | done].
  - by apply (equalFold_trans s s' t).
Qed.

Lemma MatchRisk_loop_by_folded m s s' ids :
  equalFold s s' = true ->
  MatchRisk_loop_by equalFold m s ids = MatchRisk_loop_by equalFold m s' ids.
Proof.
  intros Hfold. induction ids as [| id rest IH]; [done |].
  cbn [MatchRisk_loop_by]. destruct (TechnicalAssets m !! id) as [a |]; [| done].
  cbn [deref obind]. rewrite !(equalFold_left s s') by done.
  by destruct (_ || _).
Qed.

Lemma ExplainRisk_loop_by_folded m s s' ids acc :
  equalFold s s' = true ->
  ExplainRisk_loop_by equalFold m s ids acc = ExplainRisk_loop_by equalFold m s' ids acc.
Proof.
  intros Hfold. revert acc. induction ids as [| id rest IH]; intros acc; [done |].
  cbn [ExplainRisk_loop_by]. destruct (TechnicalAssets m !! id) as [a |]; [| done].
  cbn [deref obind]. rewrite !(equalFold_left s s') by done.
  destruct (_ || _); [| apply IH].
  destruct (_ && _); [| apply IH].
  destruct (explainRisk m a); apply IH.
Qed.

End FoldedIdentifiers.

Lemma MatchRisk_by_EqualFold m risk : MatchRisk_by EqualFold m risk = MatchRisk m risk.
Proof.
  unfold MatchRisk_by, MatchRisk.
  induction (SortedTechnicalAssetIDs m) as [| id rest IH]; [done |].
  cbn [MatchRisk_loop_by MatchRisk_loop]. by rewrite IH.
Qed.

Lemma ExplainRisk_by_EqualFold m risk : ExplainRisk_by EqualFold m risk = ExplainRisk m risk.
Proof.
  unfold ExplainRisk_by, ExplainRisk. generalize (@nil Line).
  induction (SortedTechnicalAssetIDs m) as [| id rest IH]; intros acc; [done |].
  cbn [ExplainRisk_loop_by ExplainRisk_loop].
  destruct (TechnicalAssets m !! id) as [a |]; [| done]. cbn [deref obind].
  destruct (_ || _); [| apply IH].
  destruct (_ && _); [| apply IH].
  destruct (explainRisk m a); apply IH.
Qed.

Lemma EqualFold_sym x y : EqualFold x y = EqualFold y x.
Proof. apply String.eqb_sym. Qed.

Lemma EqualFold_trans x y z :
  EqualFold x y = true -> EqualFold y z = true -> EqualFold x z = true.
Proof.
  unfold EqualFold. intros H1 H2. apply String.eqb_eq in H1, H2.
  apply String.eqb_eq. congruence.
Qed.

(** X11: [MatchRisk] and [ExplainRisk] read the identifier up to case folding
    only.  With [strings.EqualFold] a parameter, for every comparison that is
    symmetric and transitive (Unicode simple folding is; so is the ASCII
    folding above), two identifiers that the comparison equates get the same
    answer from [MatchRisk] and the same explanation from [ExplainRisk]. *)
Theorem identifier_case_insensitive :
  forall (equalFold : string -> string -> bool) (m : Model) (s s' : string),
    (forall x y, equalFold x y = equalFold y x) ->
    (forall x y z, equalFold x y = true -> equalFold y z = true -> equalFold x z = true) ->
    equalFold s s' = true ->
    MatchRisk_by equalFold m s = MatchRisk_by equalFold m s'
    /\ ExplainRisk_by equalFold m s = ExplainRisk_by equalFold m s'.
Proof.
  intros equalFold m s s' Hsym Htrans Hfold. split.
  - by apply MatchRisk_loop_by_folded.
  - by apply ExplainRisk_loop_by_folded.
Qed.

Lemma identifier_case_insensitive_witness :
  MatchRisk sampleModel "ACCIDENTAL-SECRET-LEAK@X" = MatchRisk sampleModel "accidental-secret-leak@x"
  /\ ExplainRisk sampleModel "ACCIDENTAL-SECRET-LEAK@X"
     = ExplainRisk sampleModel "accidental-secret-leak@x".
Proof.
  rewrite <- !MatchRisk_by_EqualFold, <- !ExplainRisk_by_EqualFold.
  apply (identifier_case_insensitive EqualFold sampleModel
           "ACCIDENTAL-SECRET-LEAK@X" "accidental-secret-leak@x").
  - apply EqualFold_sym.
  - apply EqualFold_trans.
  - reflexivity.
Defined.

Lemma ExplainRisk_loop_unmatched m risk ids acc :
  Forall (fun k => is_Some (TechnicalAssets m !! k)) ids ->
  existsb (matchesRisk risk) (assetsAt m ids) = false ->
  ExplainRisk_loop m risk ids acc = Returns acc.
Proof.
  induction 1 as [| id rest [a Ha] _ IH]; [done |].
  rewrite assetsAt_cons, Ha. cbn [existsb]. intros Hnone.
  apply orb_false_iff in Hnone as [Hhere Hrest].
  cbn [ExplainRisk_loop]. rewrite Ha. cbn [deref obind].
  fold (matchesRisk risk a). rewrite Hhere. by apply IH.
Qed.

(** X12: an identifier that [MatchRisk] rejects gets the empty explanation
    from [ExplainRisk]. *)
Theorem ExplainRisk_unmatched_empty :
  forall (m : Model) (risk : string),
    MatchRisk m risk = Returns false -> ExplainRisk m risk = Returns [].
Proof.
  intros m risk Hno. rewrite MatchRisk_eval in Hno. injection Hno as Hno.
  apply ExplainRisk_loop_unmatched; [apply SortedTechnicalAssetIDs_present | done].
Qed.

Lemma ExplainRisk_unmatched_empty_witness :
  ExplainRisk sampleModel "accidental-secret-leak@w" = Returns [].
Proof.
  apply (ExplainRisk_unmatched_empty sampleModel). vm_compute. reflexivity.
Defined.

Lemma explainable_iff a :
  explainable a = true
  <-> OutOfScope a = false
      /\ (GetAttribute (Technologies a) SourcecodeRepository = true
          \/ GetAttribute (Technologies a) ArtifactRegistry = true).
Proof.
  unfold explainable. rewrite andb_true_iff, negb_true_iff, orb_true_iff. done.
Qed.

(** X13: whatever the identifier, every impact tier that [ExplainRisk]
    reports stands under the Id of an asset of the model that matches the
    identifier, is in scope and is a sourcecode repository or an artifact
    registry, and is the tier [createRisk] computes for that asset. *)
Theorem ExplainRisk_reports_sound :
  forall calc (m : Model) (risk id : string) (t : RiskExploitationImpact),
    (id, t) ∈ reportedImpacts (ExplainRisk m risk) ->
    exists k a,
      TechnicalAssets m !! k = Some a
      /\ Id a = id
      /\ (EqualFold risk (ID Category +:+ "@" +:+ Id a) = true
          \/ EqualFold risk (ID Category +:+ "@*") = true)
      /\ OutOfScope a = false
      /\ (GetAttribute (Technologies a) SourcecodeRepository = true
          \/ GetAttribute (Technologies a) ArtifactRegistry = true)
      /\ forall prefix details,
           t = ExploitationImpact (createRisk calc m a prefix details).
Proof.
  intros calc m risk id t.
  destruct (ExplainRisk_reported m risk) as (ls & -> & Hls).
  cbn [reportedImpacts]. rewrite Hls, list_elem_of_fmap.
  intros (a & [= -> ->] & Hin).
  apply list_elem_of_filter in Hin as [Hpass Hin].
  apply elem_of_sortedAssets in Hin as [k Hk].
  apply andb_true_iff in Hpass as [Hmatch Hexpl].
  apply explainable_iff in Hexpl as [Hscope Htech].
  exists k, a. repeat (split; [done |]). split; [by apply orb_true_iff |].
  repeat (split; [done |]).
  intros prefix details. by rewrite createRisk_ExploitationImpact.
Qed.

Lemma ExplainRisk_reports_sound_witness :
  exists k a,
    TechnicalAssets sampleModel !! k = Some a
    /\ Id a = "x"
    /\ (EqualFold "accidental-secret-leak@*" (ID Category +:+ "@" +:+ Id a) = true
        \/ EqualFold "accidental-secret-leak@*" (ID Category +:+ "@*") = true)
    /\ OutOfScope a = false
    /\ (GetAttribute (Technologies a) SourcecodeRepository = true
        \/ GetAttribute (Technologies a) ArtifactRegistry = true)
    /\ forall prefix details,
         HighImpact = ExploitationImpact (createRisk sampleSeverity sampleModel a prefix details).
Proof.
  apply (ExplainRisk_reports_sound sampleSeverity sampleModel "accidental-secret-leak@*").
  vm_compute. left.
Defined.

(** X14: on the wildcard identifier [ExplainRisk] explains every in-scope
    asset that is a sourcecode repository or an artifact registry: its Id
    appears with the tier [createRisk] computes for it. *)
Theorem ExplainRisk_wildcard_complete :
  forall calc (m : Model) (k : string) (a : TechnicalAsset) (prefix details : string),
    TechnicalAssets m !! k = Some a ->
    OutOfScope a = false ->
    GetAttribute (Technologies a) SourcecodeRepository = true
    \/ GetAttribute (Technologies a) ArtifactRegistry = true ->
    (Id a, ExploitationImpact (createRisk calc m a prefix details))
      ∈ reportedImpacts (ExplainRisk m (ID Category +:+ "@*")).
Proof.
  intros calc m k a prefix details Hk Hscope Htech.
  destruct (ExplainRisk_reported m (ID Category +:+ "@*")) as (ls & -> & Hls).
  cbn [reportedImpacts]. rewrite Hls, list_elem_of_fmap.
  exists a. split; [by rewrite createRisk_ExploitationImpact |].
  apply list_elem_of_filter. split.
  - apply andb_true_iff. split; [apply matchesRisk_wildcard | by apply explainable_iff].
  - apply elem_of_sortedAssets. by exists k.
Qed.

Lemma ExplainRisk_wildcard_complete_witness :
  (Id assetX, ExploitationImpact (createRisk sampleSeverity sampleModel assetX "" ""))
    ∈ reportedImpacts (ExplainRisk sampleModel (ID Category +:+ "@*")).
Proof.
  apply (ExplainRisk_wildcard_complete sampleSeverity sampleModel "x" assetX "" "");
    [reflexivity | reflexivity | left; reflexivity].
Defined.

(** X15: the shape of what [explainRisk] returns.  The slice is never nil.
    In the Medium tier it is the heading line alone: the three reason lines
    of that branch test for the maxima, which the branch excludes.  In the
    Low tier it is the default line alone, and in the High tier the heading
    is followed by one to three reason lines. *)
Theorem explainRisk_shape :
  forall (m : Model) (a : TechnicalAsset),
    let tier := impactTierSpec (HighestProcessedConfidentiality m a)
                               (HighestProcessedIntegrity m a)
                               (HighestProcessedAvailability m a) in
    (tier = MediumImpact ->
     explainRisk m a = Some [Sprintf "    - impact is %v because" [VImpact MediumImpact]])
    /\ (tier = LowImpact ->
        explainRisk m a = Some [Sprintf "     - impact is %v (default)" [VImpact LowImpact]])
    /\ (tier = HighImpact ->
        exists reasons,
          explainRisk m a
          = Some (Sprintf "    - impact is %v because" [VImpact HighImpact] :: reasons)
          /\ (1 <= length reasons <= 3)%nat)
    /\ tier <> VeryHighImpact.
Proof.
  intros m a. unfold explainRisk, impactTierSpec. cbv zeta.
  destruct (HighestProcessedConfidentiality m a),
           (HighestProcessedIntegrity m a),
           (HighestProcessedAvailability m a);
    cbn; (split; [| split; [| split]]);
    try discriminate; try reflexivity;
    intros _; eexists; (split; [reflexivity | cbn; lia]).
Qed.

Lemma explainRisk_shape_witness :
  explainRisk confidentialModel assetX
  = Some [Sprintf "    - impact is %v because" [VImpact MediumImpact]]
  /\ explainRisk sampleModel assetV
     = Some [Sprintf "     - impact is %v (default)" [VImpact LowImpact]].
Proof.
  split.
  - apply (proj1 (explainRisk_shape confidentialModel assetX)). reflexivity.
  - apply (proj1 (proj2 (explainRisk_shape sampleModel assetV))). reflexivity.
Defined.

(** X16: every risk that [GenerateRisks] produces carries the category ID of
    the rule, likelihood Unlikely, data breach probability Probable, its own
    asset as the only data-breach asset, the synthetic identifier category
    ID, "@", asset Id, an impact tier of Low, Medium or High, and the severity
    the table gives for Unlikely and that tier. *)
Theorem GenerateRisks_risk_invariants :
  forall calc (m : Model) (risks : list Risk),
    GenerateRisks calc m = Returns (risks, None) ->
    Forall (fun r =>
              CategoryId r = "accidental-secret-leak"
              /\ ExploitationLikelihood r = Unlikely
              /\ DataBreachProbability_ r = Probable
              /\ DataBreachTechnicalAssetIDs r = [MostRelevantTechnicalAssetId r]
              /\ SyntheticId r = CategoryId r +:+ "@" +:+ MostRelevantTechnicalAssetId r
              /\ ExploitationImpact r <> VeryHighImpact
              /\ Severity r = calc Unlikely (ExploitationImpact r))
           risks.
Proof.
  intros calc m risks Hgen.
  rewrite GenerateRisks_spec in Hgen. injection Hgen as <-.
  apply Forall_fmap, Forall_forall. intros a _. cbn.
  assert (Htier : ExploitationImpact (riskOf calc m a) <> VeryHighImpact).
  { rewrite riskOf_ExploitationImpact. unfold impactTierSpec.
    by repeat match goal with |- context [if ?b then _ else _] => destruct b end. }
  unfold riskOf in *. by destruct (IsTaggedWithAny a _).
Qed.

Lemma GenerateRisks_risk_invariants_witness :
  Forall (fun r =>
            CategoryId r = "accidental-secret-leak"
            /\ ExploitationLikelihood r = Unlikely
            /\ DataBreachProbability_ r = Probable
            /\ DataBreachTechnicalAssetIDs r = [MostRelevantTechnicalAssetId r]
            /\ SyntheticId r = CategoryId r +:+ "@" +:+ MostRelevantTechnicalAssetId r
            /\ ExploitationImpact r <> VeryHighImpact
            /\ Severity r = sampleSeverity Unlikely (ExploitationImpact r))
         [riskOf sampleSeverity sampleModel assetV; riskOf sampleSeverity sampleModel assetX].
Proof.
  apply (GenerateRisks_risk_invariants sampleSeverity sampleModel). vm_compute. reflexivity.
Defined.

Lemma NoDup_sortedAssets m : uniqueIds m -> NoDup (sortedAssets m).
Proof.
  intros Huniq. rewrite sortedAssets_Permutation.
  apply NoDup_fmap_2_strong; [| apply NoDup_map_to_list].
  intros [k1 a1] [k2 a2] H1 H2 Heq. cbn in Heq. subst a2.
  apply elem_of_map_to_list in H1, H2.
  by rewrite (Huniq k1 k2 a1 a1 H1 H2 eq_refl).
Qed.

(** X17: in a model with unique asset identities no two risks of one
    [GenerateRisks] result share a synthetic identifier. *)
Theorem GenerateRisks_SyntheticId_NoDup :
  forall calc (m : Model) (risks : list Risk),
    uniqueIds m ->
    GenerateRisks calc m = Returns (risks, None) ->
    NoDup (SyntheticId <$> risks).
Proof.
  intros calc m risks Huniq Hgen.
  rewrite GenerateRisks_spec in Hgen. injection Hgen as <-.
  rewrite <- list_fmap_compose.
  apply NoDup_fmap_2_strong; [| by apply NoDup_filter, NoDup_sortedAssets].
  intros a1 a2 H1 H2 Heq. cbn in Heq.
  rewrite !riskOf_SyntheticId in Heq.
  apply (inj (String.app _)), (inj (String.app _)) in Heq.
  apply list_elem_of_filter in H1 as [_ H1], H2 as [_ H2].
  apply elem_of_sortedAssets in H1 as [k1 H1].
  symmetry. by eapply uniqueIds_same_asset.
Qed.

Lemma GenerateRisks_SyntheticId_NoDup_witness :
  NoDup (SyntheticId <$> [riskOf sampleSeverity sampleModel assetV;
                          riskOf sampleSeverity sampleModel assetX]).
Proof.
  apply (GenerateRisks_SyntheticId_NoDup sampleSeverity sampleModel).
  - apply keyed_by_Id_uniqueIds. apply (bool_decide_unpack _). vm_compute. exact I.
  - vm_compute. reflexivity.
Defined.

(** X18: [GenerateRisks] returns the empty list, and still a nil error,
    exactly when every asset of the model is out of scope or lacks the
    may-contain-secrets attribute; in particular on a model without assets. *)
Theorem GenerateRisks_empty_iff :
  forall calc (m : Model),
    GenerateRisks calc m = Returns ([], None)
    <-> forall k a,
          TechnicalAssets m !! k = Some a ->
          OutOfScope a = true \/ GetAttribute (Technologies a) MayContainSecrets = false.
Proof.
  intros calc m. rewrite GenerateRisks_spec. split.
  - intros [= Hnil] k a Hk. apply fmap_nil_inv in Hnil.
    destruct (skipAsset a) eqn:Hskip.
    + unfold skipAsset in Hskip. apply orb_true_iff in Hskip as [? | H]; [by left |].
      right. by apply negb_true_iff in H.
    + exfalso. eapply filter_nil_not_elem_of; [exact Hnil | exact Hskip |].
      apply elem_of_sortedAssets. by exists k.
  - intros Hall. do 2 f_equal.
    destruct (filter _ (sortedAssets m)) as [| a l] eqn:Hf; [done |].
    assert (Hin : a ∈ filter (fun a => skipAsset a = false) (sortedAssets m))
      by (rewrite Hf; left).
    apply list_elem_of_filter in Hin as [Hskip Hin].
    apply elem_of_sortedAssets in Hin as [k Hk].
    apply skipAsset_false in Hskip. destruct (Hskip (Hall k a Hk)).
Qed.

Lemma GenerateRisks_empty_iff_witness :
  GenerateRisks sampleSeverity outOfScopeModel = Returns ([], None).
Proof.
  apply (proj2 (GenerateRisks_empty_iff sampleSeverity outOfScopeModel)).
  intros k a Hk. cbn in Hk.
  apply lookup_insert_Some in Hk as [[_ <-] | [_ Hk]]; [by left |].
  by rewrite lookup_empty in Hk.
Defined.

(** * Further properties of the string helpers *)

Lemma containsCaseInsensitiveAny_iff a x :
  containsCaseInsensitiveAny a x = true
  <-> exists n c, n ∈ a /\ c ∈ x /\ TrimSpace (ToLower c) = TrimSpace (ToLower n).
Proof.
  unfold containsCaseInsensitiveAny. rewrite existsb_exists. split.
  - intros (n & Hn & H). apply existsb_exists in H as (c & Hc & H).
    apply String.eqb_eq in H. exists n, c. by rewrite <- !list_elem_of_In in *.
  - intros (n & c & Hn & Hc & H). exists n. split; [by apply list_elem_of_In |].
    apply existsb_exists. exists c. split; [by apply list_elem_of_In |].
    by apply String.eqb_eq.
Qed.

(** X19: [containsCaseInsensitiveAny] is symmetric in its two lists, and
    false as soon as one of them is empty. *)
Theorem containsCaseInsensitiveAny_symmetric :
  forall a x : list string,
    containsCaseInsensitiveAny a x = containsCaseInsensitiveAny x a
    /\ containsCaseInsensitiveAny [] x = false
    /\ containsCaseInsensitiveAny a [] = false.
Proof.
  intros a x. split; [| split].
  - apply eq_true_iff_eq. rewrite !containsCaseInsensitiveAny_iff. split.
    + intros (n & c & ? & ? & ?). by exists c, n.
    + intros (n & c & ? & ? & ?). by exists c, n.
  - reflexivity.
  - unfold containsCaseInsensitiveAny. by induction a.
Qed.

(** X20: whatever [contains] finds, [containsCaseInsensitiveAny] finds as
    well, and it also finds a tag that differs from the wanted one only in
    the case of ASCII letters or in surrounding white space. *)
Theorem contains_containsCaseInsensitiveAny :
  forall (a : list string) (x n : string),
    (contains a x = true -> containsCaseInsensitiveAny a [x] = true)
    /\ (n ∈ a -> TrimSpace (ToLower n) = TrimSpace (ToLower x) ->
        containsCaseInsensitiveAny a [x] = true).
Proof.
  intros a x n. split.
  - intros Hin. apply (proj1 (existsb_exists _ _)) in Hin as (n' & Hin & Heq).
    apply String.eqb_eq in Heq as <-.
    apply containsCaseInsensitiveAny_iff. exists x, x.
    split; [by apply list_elem_of_In |]. split; [left | done].
  - intros Hin Heq. apply containsCaseInsensitiveAny_iff. exists n, x.
    split; [done |]. split; [left | done].
Qed.

Lemma contains_containsCaseInsensitiveAny_witness :
  containsCaseInsensitiveAny ["docker"; "  GIT "] ["git"] = true.
Proof.
  apply (proj2 (contains_containsCaseInsensitiveAny ["docker"; "  GIT "] "git" "  GIT ")).
  - right. left.
  - reflexivity.
Defined.
